(** * volkscv.metrics.classification.base : the [BaseMetric] interface

    A shallow embedding of [src/volkscv/metrics/classification/base.py]:
    the four static validation helpers, the constructor, the body of the
    abstract [compute] and the [__call__] wrapper, over a small model of
    the Python and numpy values these functions can receive: float64,
    float32 and int64 arrays, numpy and Python scalars, lists and
    [None]. *)

From Stdlib Require Import ZArith List Bool String Lia.
From Stdlib Require Import SpecFloat.
Import ListNotations.

Local Open Scope Z_scope.

(** ** IEEE 754 binary64, the dtype of predicted probabilities

    numpy's [float64] is modelled with the Standard Library's
    [spec_float] at precision 53 and maximal exponent 1024. *)

Module F64.

Definition prec : Z := 53.
Definition emax : Z := 1024.

Definition t : Type := spec_float.

Definition of_Z (z : Z) : t := binary_normalize prec emax z 0 false.

Definition zero : t := Eval cbv in of_Z 0.
Definition one : t := Eval cbv in of_Z 1.
Definition nan : t := S754_nan.

Definition add (x y : t) : t := SFadd prec emax x y.
Definition leb (x y : t) : bool := SFleb x y.
Definition ltb (x y : t) : bool := SFltb x y.

Definition is_nan (x : t) : bool :=
  match x with S754_nan => true | _ => false end.

Definition valid (x : t) : bool := valid_binary prec emax x.

(** Decimal literals that occur in the examples, as the nearest double. *)
Definition d0_7 : t := S754_finite false 6305039478318694 (-53).
Definition d0_3 : t := S754_finite false 5404319552844595 (-54).
Definition d0_5 : t := S754_finite false 4503599627370496 (-53).
Definition d1_2 : t := S754_finite false 5404319552844595 (-52).
Definition dm0_2 : t := S754_finite true 7205759403792794 (-55).
Definition d0_9 : t := S754_finite false 8106479329266893 (-53).

End F64.

(** ** The other dtypes: float32 and int64

    numpy adds a float32 buffer in binary32 and an int64 buffer in 64-bit
    two's complement, where a sum wraps around. *)

Module F32.

Definition prec : Z := 24.
Definition emax : Z := 128.

Definition t : Type := spec_float.

Definition of_Z (z : Z) : t := binary_normalize prec emax z 0 false.

Definition zero : t := Eval cbv in of_Z 0.
Definition one : t := Eval cbv in of_Z 1.

Definition add (x y : t) : t := SFadd prec emax x y.
Definition leb (x y : t) : bool := SFleb x y.
Definition ltb (x y : t) : bool := SFltb x y.

Definition is_nan (x : t) : bool :=
  match x with S754_nan => true | _ => false end.

Definition valid (x : t) : bool := valid_binary prec emax x.

(** [0.5], [0.75] and [0.25] in binary32. *)
Definition d0_5 : t := S754_finite false 8388608 (-24).
Definition d0_75 : t := S754_finite false 12582912 (-24).
Definition d0_25 : t := S754_finite false 8388608 (-25).

End F32.

Module I64.

Definition t : Type := Z.

Definition min_int : Z := - 2 ^ 63.
Definition max_int : Z := 2 ^ 63 - 1.

(** The value of an integer in 64-bit two's complement. *)
Definition wrap (z : Z) : Z := (z + 2 ^ 63) mod 2 ^ 64 - 2 ^ 63.

Definition add (x y : t) : t := wrap (x + y).

Definition valid (z : t) : bool := (min_int <=? z) && (z <=? max_int).

End I64.

(** ** Python objects

    The classes that matter to the checks: [numpy.ndarray], two of its
    proper subclasses, numpy's scalar types [float64], [float32] and
    [int64], and some builtin types a caller may pass instead of an
    array. *)

Inductive pytype : Type :=
| T_ndarray | T_matrix | T_memmap
| T_float64 | T_float32 | T_int64
| T_float | T_int | T_list | T_NoneType | T_object.

Definition pytype_eqb (a b : pytype) : bool :=
  match a, b with
  | T_ndarray, T_ndarray | T_matrix, T_matrix | T_memmap, T_memmap
  | T_float64, T_float64 | T_float32, T_float32 | T_int64, T_int64
  | T_float, T_float | T_int, T_int
  | T_list, T_list | T_NoneType, T_NoneType | T_object, T_object => true
  | _, _ => false
  end.

(** Direct base classes ([cls.__bases__]), restricted to the modelled types. *)
Definition bases (c : pytype) : list pytype :=
  match c with
  | T_matrix => [T_ndarray]
  | T_memmap => [T_ndarray]
  | T_float64 => [T_float]
  | T_object => []
  | _ => [T_object]
  end.

(** [issubclass c d], by walking [__bases__]; the hierarchy has depth 2. *)
Fixpoint issubclass_fuel (fuel : nat) (c d : pytype) : bool :=
  pytype_eqb c d ||
  match fuel with
  | O => false
  | S k => existsb (fun b => issubclass_fuel k b d) (bases c)
  end.

Definition issubclass (c d : pytype) : bool := issubclass_fuel 3 c d.

Definition proper_subclass (c d : pytype) : bool :=
  issubclass c d && negb (pytype_eqb c d).

(** Which array class an array object is an instance of. *)
Inductive arrcls : Type := Cndarray | Cmatrix | Cmemmap.

Definition arrcls_type (c : arrcls) : pytype :=
  match c with
  | Cndarray => T_ndarray
  | Cmatrix => T_matrix
  | Cmemmap => T_memmap
  end.

(** A float64 array: its class, its [shape] tuple and its buffer in C
    order. *)
Record array : Type := mk_array {
  a_cls : arrcls;
  a_shape : list nat;
  a_data : list F64.t
}.

(** An [ndarray] of one of the other dtypes: its shape and its buffer. *)
Inductive buffer : Type :=
| BufF32 (xs : list F32.t)
| BufI64 (zs : list I64.t).

Record xarray : Type := mk_xarray {
  x_shape : list nat;
  x_buf : buffer
}.

#[warnings="-register-all"]
Inductive pyobj : Type :=
| PyArray (a : array)
| NpFloat64 (x : F64.t)
| PyFloat (x : F64.t)
| PyInt (z : Z)
| PyList (l : list pyobj)
| PyNone
| PyXArray (b : xarray)
| NpFloat32 (x : F32.t)
| NpInt64 (z : I64.t).

Definition type (o : pyobj) : pytype :=
  match o with
  | PyArray a => arrcls_type (a_cls a)
  | NpFloat64 _ => T_float64
  | PyFloat _ => T_float
  | PyInt _ => T_int
  | PyList _ => T_list
  | PyNone => T_NoneType
  | PyXArray _ => T_ndarray
  | NpFloat32 _ => T_float32
  | NpInt64 _ => T_int64
  end.

Definition buf_length (b : buffer) : nat :=
  match b with
  | BufF32 xs => List.length xs
  | BufI64 zs => List.length zs
  end.

Definition buf_firstn (k : nat) (b : buffer) : buffer :=
  match b with
  | BufF32 xs => BufF32 (firstn k xs)
  | BufI64 zs => BufI64 (firstn k zs)
  end.

Definition size_of_shape (sh : list nat) : nat := fold_right Nat.mul 1%nat sh.

(** A well-formed array holds exactly as many elements as its shape says,
    all of them binary64 values; a [numpy.matrix] is two-dimensional. *)
Definition wf_array (a : array) : bool :=
  Nat.eqb (List.length (a_data a)) (size_of_shape (a_shape a))
  && forallb F64.valid (a_data a)
  && match a_cls a with
     | Cmatrix => Nat.eqb (List.length (a_shape a)) 2
     | _ => true
     end.

Definition wf_xarray (b : xarray) : bool :=
  Nat.eqb (buf_length (x_buf b)) (size_of_shape (x_shape b))
  && match x_buf b with
     | BufF32 xs => forallb F32.valid xs
     | BufI64 zs => forallb I64.valid zs
     end.

(** ** Outcomes: a returned value or a raised exception *)

Inductive exn : Type :=
| AssertionError (msg : string)
| AttributeError
| IndexError
| TypeError.

Inductive outcome (A : Type) : Type :=
| Return (a : A)
| Raise (e : exn).

Arguments Return {A} a.
Arguments Raise {A} e.

Definition obind {A B} (m : outcome A) (k : A -> outcome B) : outcome B :=
  match m with
  | Return a => k a
  | Raise e => Raise e
  end.

Declare Scope outcome_scope.
Delimit Scope outcome_scope with outcome.
Notation "x <- m ;; k" := (obind m (fun x => k))
  (at level 61, m at next level, right associativity) : outcome_scope.
Notation "m ;;; k" := (obind m (fun _ => k))
  (at level 61, right associativity) : outcome_scope.

(** [assert cond, msg] *)
Definition py_assert (cond : bool) (msg : string) : outcome unit :=
  if cond then Return tt else Raise (AssertionError msg).

Local Open Scope outcome_scope.

(** ** The Python and numpy operations the helpers use *)

(** [o.shape]: arrays carry their shape, a numpy scalar has shape [()],
    the builtin types have no such attribute. *)
Definition getattr_shape (o : pyobj) : outcome (list nat) :=
  match o with
  | PyArray a => Return (a_shape a)
  | PyXArray b => Return (x_shape b)
  | NpFloat64 _ | NpFloat32 _ | NpInt64 _ => Return []
  | PyFloat _ | PyInt _ | PyList _ | PyNone => Raise AttributeError
  end.

(** [t[i]] on a tuple of dimensions. *)
Definition tuple_getitem (t : list nat) (i : nat) : outcome nat :=
  match nth_error t i with
  | Some d => Return d
  | None => Raise IndexError
  end.

(** [o[0]].  On an array of shape [(n, d1, ..)] with [n >= 1] this is the
    first block of [d1 * ..] elements: a numpy scalar when the array is
    one-dimensional, a sub-array otherwise (a [numpy.matrix] row stays
    two-dimensional).  Index 0 is out of bounds when [n = 0], and a
    zero-dimensional array or a numpy scalar cannot be indexed. *)
Definition getitem0 (o : pyobj) : outcome pyobj :=
  match o with
  | PyArray a =>
      match a_shape a with
      | [] => Raise IndexError
      | O :: _ => Raise IndexError
      | S _ :: rest =>
          let row := firstn (size_of_shape rest) (a_data a) in
          match a_cls a, rest with
          | Cmatrix, _ => Return (PyArray (mk_array Cmatrix (1%nat :: rest) row))
          | _, [] => Return (NpFloat64 (nth 0 row F64.zero))
          | c, _ :: _ => Return (PyArray (mk_array c rest row))
          end
      end
  | PyXArray b =>
      match x_shape b with
      | [] => Raise IndexError
      | O :: _ => Raise IndexError
      | S _ :: rest =>
          let k := size_of_shape rest in
          match rest, x_buf b with
          | [], BufF32 xs => Return (NpFloat32 (nth 0 (firstn k xs) F32.zero))
          | [], BufI64 zs => Return (NpInt64 (nth 0 (firstn k zs) 0))
          | _ :: _, buf => Return (PyXArray (mk_xarray rest (buf_firstn k buf)))
          end
      end
  | NpFloat64 _ | NpFloat32 _ | NpInt64 _ => Raise IndexError
  | PyList [] => Raise IndexError
  | PyList (x :: _) => Return x
  | PyFloat _ | PyInt _ | PyNone => Raise TypeError
  end.

(** ** numpy's sum of a contiguous buffer

    [add.reduce] starts from the identity [0] and adds to it the pairwise
    sum of the buffer (numpy's [pairwise_sum]): fewer than 8 elements are
    added left to right from [0]; up to [PW_BLOCKSIZE] = 128 elements are
    added in 8 interleaved lanes, the lanes are combined as a balanced
    tree and the [n mod 8] last elements are added to that; a longer
    buffer is split at [n / 2] rounded down to a multiple of 8 and the
    sums of the two parts are added.  (Releases differ in the sign of the
    zero they start from, which no comparison can see.) *)

Section PairwiseSum.

Context {A : Type} (add : A -> A -> A) (zero : A).

Definition sum_from (acc : A) (xs : list A) : A := fold_left add xs acc.

Record lanes : Type := mk_lanes {
  r0 : A; r1 : A; r2 : A; r3 : A; r4 : A; r5 : A; r6 : A; r7 : A
}.

(** [for (i = 8; i < n - n % 8; i += 8) r[j] += a[i + j]]; what is left
    over has fewer than 8 elements. *)
Fixpoint lanes_loop (r : lanes) (xs : list A) : lanes * list A :=
  match xs with
  | a0 :: a1 :: a2 :: a3 :: a4 :: a5 :: a6 :: a7 :: rest =>
      lanes_loop
        (mk_lanes (add (r0 r) a0) (add (r1 r) a1) (add (r2 r) a2)
                  (add (r3 r) a3) (add (r4 r) a4) (add (r5 r) a5)
                  (add (r6 r) a6) (add (r7 r) a7))
        rest
  | _ => (r, xs)
  end.

Definition lanes_total (r : lanes) : A :=
  add (add (add (r0 r) (r1 r)) (add (r2 r) (r3 r)))
      (add (add (r4 r) (r5 r)) (add (r6 r) (r7 r))).

(** The two cases of [pairwise_sum] that do not recurse. *)
Definition block_sum (xs : list A) : A :=
  match xs with
  | a0 :: a1 :: a2 :: a3 :: a4 :: a5 :: a6 :: a7 :: rest =>
      let (r, tail) := lanes_loop (mk_lanes a0 a1 a2 a3 a4 a5 a6 a7) rest in
      sum_from (lanes_total r) tail
  | _ => sum_from zero xs
  end.

Definition PW_BLOCKSIZE : nat := 128.

Definition split_point (n : nat) : nat := (n / 2 - (n / 2) mod 8)%nat.

(** Each split at least halves the buffer, so a depth equal to its length
    is never used up ([pairwise_sum_unfold] below). *)
Fixpoint pairwise_fuel (fuel : nat) (xs : list A) : A :=
  if (List.length xs <=? PW_BLOCKSIZE)%nat then block_sum xs
  else
    match fuel with
    | O => block_sum xs
    | S k =>
        let n2 := split_point (List.length xs) in
        add (pairwise_fuel k (firstn n2 xs)) (pairwise_fuel k (skipn n2 xs))
    end.

Definition pairwise_sum (xs : list A) : A :=
  pairwise_fuel (List.length xs) xs.

Definition reduce_add (xs : list A) : A := add zero (pairwise_sum xs).

End PairwiseSum.

(** The float64 sum of a contiguous float64 buffer. *)
Definition np_sum (xs : list F64.t) : F64.t := reduce_add F64.add F64.zero xs.

(** The same in binary32. *)
Definition np_sum32 (xs : list F32.t) : F32.t :=
  reduce_add F32.add F32.zero xs.

(** Integers are added one after the other from [0]; the sum wraps. *)
Definition np_sum_int (zs : list I64.t) : I64.t := fold_left I64.add zs 0.

(** A numpy number: what [sum] returns. *)
Inductive num : Type :=
| NumF64 (x : F64.t)
| NumF32 (x : F32.t)
| NumI64 (z : I64.t).

Definition buf_sum (b : buffer) : num :=
  match b with
  | BufF32 xs => NumF32 (np_sum32 xs)
  | BufI64 zs => NumI64 (np_sum_int zs)
  end.

(** [s <= 1], [1 < s] and [isnan(s)] on a numpy number. *)
Definition num_le_one (s : num) : bool :=
  match s with
  | NumF64 x => F64.leb x F64.one
  | NumF32 x => F32.leb x F32.one
  | NumI64 z => (z <=? 1)%Z
  end.

Definition num_gt_one (s : num) : bool :=
  match s with
  | NumF64 x => F64.ltb F64.one x
  | NumF32 x => F32.ltb F32.one x
  | NumI64 z => (1 <? z)%Z
  end.

Definition num_is_nan (s : num) : bool :=
  match s with
  | NumF64 x => F64.is_nan x
  | NumF32 x => F32.is_nan x
  | NumI64 _ => false
  end.

(** [o.sum()] with no axis: the sum of all elements, a scalar of the
    array's dtype; the sum of a numpy scalar is the scalar. *)
Definition call_sum (o : pyobj) : outcome num :=
  match o with
  | PyArray a => Return (NumF64 (np_sum (a_data a)))
  | PyXArray b => Return (buf_sum (x_buf b))
  | NpFloat64 x => Return (NumF64 x)
  | NpFloat32 x => Return (NumF32 x)
  | NpInt64 z => Return (NumI64 z)
  | PyFloat _ | PyInt _ | PyList _ | PyNone => Raise AttributeError
  end.

(** [c <= o] and [o <= c] for an integer literal [c]: element-wise on an
    array (the literal is converted to the array's dtype), a single truth
    value on a scalar, unsupported between an [int] and a [list] or
    [None]. *)
Definition le_const_obj (c : Z) (o : pyobj) : outcome (list bool) :=
  match o with
  | PyArray a => Return (map (fun x => F64.leb (F64.of_Z c) x) (a_data a))
  | PyXArray b =>
      match x_buf b with
      | BufF32 xs => Return (map (fun x => F32.leb (F32.of_Z c) x) xs)
      | BufI64 zs => Return (map (fun z => Z.leb c z) zs)
      end
  | NpFloat64 x | PyFloat x => Return [F64.leb (F64.of_Z c) x]
  | NpFloat32 x => Return [F32.leb (F32.of_Z c) x]
  | PyInt z | NpInt64 z => Return [Z.leb c z]
  | PyList _ | PyNone => Raise TypeError
  end.

Definition le_obj_const (o : pyobj) (c : Z) : outcome (list bool) :=
  match o with
  | PyArray a => Return (map (fun x => F64.leb x (F64.of_Z c)) (a_data a))
  | PyXArray b =>
      match x_buf b with
      | BufF32 xs => Return (map (fun x => F32.leb x (F32.of_Z c)) xs)
      | BufI64 zs => Return (map (fun z => Z.leb z c) zs)
      end
  | NpFloat64 x | PyFloat x => Return [F64.leb x (F64.of_Z c)]
  | NpFloat32 x => Return [F32.leb x (F32.of_Z c)]
  | PyInt z | NpInt64 z => Return [Z.leb z c]
  | PyList _ | PyNone => Raise TypeError
  end.

(** [np.all(mask)] *)
Definition np_all (mask : list bool) : bool := forallb (fun b => b) mask.

(** [a and b]: [b] is evaluated only when [a] is true. *)
Definition py_and (a b : outcome bool) : outcome bool :=
  x <- a ;; if x then b else Return false.

(** ** The static validation helpers of [BaseMetric] *)

Definition msg_match : string := "pred and target don't match".
Definition msg_type : string :=
  "Only numpy.ndarray is supported for computing accuracy".
Definition msg_range : string :=
  "Pred should stand for the predicted probability in range (0, 1)".
Definition msg_sum : string :=
  "Pred should stand for the predicted probability with sum up to 1".

(** The four failure conditions of the specification are the assertion
    failures of the four helpers, told apart by their messages. *)
Definition ShapeMismatch : exn := AssertionError msg_match.
Definition TypeMismatch : exn := AssertionError msg_type.
Definition RangeViolation : exn := AssertionError msg_range.
Definition SumViolation : exn := AssertionError msg_sum.

Definition _check_match (pred target : pyobj) : outcome unit :=
  ps <- getattr_shape pred ;;
  p0 <- tuple_getitem ps 0 ;;
  ts <- getattr_shape target ;;
  t0 <- tuple_getitem ts 0 ;;
  py_assert (Nat.eqb p0 t0) msg_match.

Definition _check_type (pred target : pyobj) : outcome unit :=
  py_assert (pytype_eqb (type pred) T_ndarray
             && pytype_eqb (type target) T_ndarray) msg_type.

Definition _check_pred_range (pred : pyobj) : outcome unit :=
  cond <- py_and (lo <- le_const_obj 0 pred ;; Return (np_all lo))
                 (hi <- le_obj_const pred 1 ;; Return (np_all hi)) ;;
  py_assert cond msg_range.

Definition _check_pred_sum (pred : pyobj) : outcome unit :=
  row <- getitem0 pred ;;
  s <- call_sum row ;;
  py_assert (num_le_one s) msg_sum.

(** ** Vocabulary of the statements *)

(** The leading dimension [o.shape[0]], when [o] has one. *)
Definition leading_dim (o : pyobj) : option nat :=
  match o with
  | PyArray a => hd_error (a_shape a)
  | PyXArray b => hd_error (x_shape b)
  | _ => None
  end.

(** Membership in the closed interval [[0, 1]]; NaN is not a member. *)
Definition in_unit_interval (x : F64.t) : bool :=
  F64.leb F64.zero x && F64.leb x F64.one.

(** The first row [a[0]] of an array and its float64 sum. *)
Definition first_row (a : array) : list F64.t :=
  firstn (size_of_shape (tl (a_shape a))) (a_data a).

Definition first_row_sum (a : array) : F64.t := np_sum (first_row a).

(** The rows after the first. *)
Definition later_rows (a : array) : list F64.t :=
  skipn (size_of_shape (tl (a_shape a))) (a_data a).

(** Whether [o] is an array with at least one row. *)
Definition has_first_row (o : pyobj) : bool :=
  match leading_dim o with
  | Some (S _) => true
  | _ => false
  end.

(** The same for the other dtypes: the first row, the value its [sum]
    returns and the unit interval. *)
Definition xfirst_row (b : xarray) : buffer :=
  buf_firstn (size_of_shape (tl (x_shape b))) (x_buf b).

Definition xfirst_row_sum (b : xarray) : num := buf_sum (xfirst_row b).

Definition in_unit_interval32 (x : F32.t) : bool :=
  F32.leb F32.zero x && F32.leb x F32.one.

Definition in_unit_interval_int (z : I64.t) : bool :=
  (0 <=? z)%Z && (z <=? 1)%Z.

Definition buf_in_unit_interval (b : buffer) : bool :=
  match b with
  | BufF32 xs => forallb in_unit_interval32 xs
  | BufI64 zs => forallb in_unit_interval_int zs
  end.

(** ** Example inputs *)

Definition nd (shape : list nat) (data : list F64.t) : pyobj :=
  PyArray (mk_array Cndarray shape data).

(** [np.array([[0.7, 0.3]])] and [np.array([0])] *)
Definition pred_07_03 : pyobj := nd [1; 2]%nat [F64.d0_7; F64.d0_3].
Definition target_0 : pyobj := nd [1]%nat [F64.zero].

(** [np.array([[1.2, -0.2]])] *)
Definition pred_out_of_range : pyobj := nd [1; 2]%nat [F64.d1_2; F64.dm0_2].

(** [np.array([[0.5, 0.5], [0.9, 0.3]])]: only the second row sums above 1. *)
Definition pred_bad_second_row : pyobj :=
  nd [2; 2]%nat [F64.d0_5; F64.d0_5; F64.d0_9; F64.d0_3].

(** [np.array([[nan, 0.5]])] *)
Definition pred_nan : array :=
  mk_array Cndarray [1; 2]%nat [F64.nan; F64.d0_5].

(** [np.array([[2**63 - 1, 1]])], dtype int64: the sum wraps to [-2**63]. *)
Definition pred_int_wraps : xarray :=
  mk_xarray [1; 2]%nat (BufI64 [I64.max_int; 1]).

(** [np.array([[0.5, 0.75], [0.25, 0.25]], dtype=float32)] *)
Definition pred_f32 : xarray :=
  mk_xarray [2; 2]%nat (BufF32 [F32.d0_5; F32.d0_75; F32.d0_25; F32.d0_25]).

(** A row of ten whose left-to-right sum is [1 + 2**-52] and whose numpy
    sum is [1.0]: 0.05, 0.05, 0.125, 0.05, 0.2, 0.125, 0.1, 0.2, 0.05,
    0.05. *)
Definition row_pairwise_at_one : list F64.t :=
  [S754_finite false 7205759403792794 (-57);
   S754_finite false 7205759403792794 (-57);
   S754_finite false 4503599627370496 (-55);
   S754_finite false 7205759403792794 (-57);
   S754_finite false 7205759403792794 (-55);
   S754_finite false 4503599627370496 (-55);
   S754_finite false 7205759403792794 (-56);
   S754_finite false 7205759403792794 (-55);
   S754_finite false 7205759403792794 (-57);
   S754_finite false 7205759403792794 (-57)].

(** A row of nine whose left-to-right sum is [1.0] and whose numpy sum
    is [1 + 2**-52]: 0.05, 0.25, 0.01, 0.01, 0.1, 0.1, 0.03, 0.35, 0.1. *)
Definition row_pairwise_above_one : list F64.t :=
  [S754_finite false 7205759403792794 (-57);
   S754_finite false 4503599627370496 (-54);
   S754_finite false 5764607523034235 (-59);
   S754_finite false 5764607523034235 (-59);
   S754_finite false 7205759403792794 (-56);
   S754_finite false 7205759403792794 (-56);
   S754_finite false 8646911284551352 (-58);
   S754_finite false 6305039478318694 (-54);
   S754_finite false 7205759403792794 (-56)].

(** [np.matrix([[0.7, 0.3]])] *)
Definition pred_matrix : pyobj :=
  PyArray (mk_array Cmatrix [1; 2]%nat [F64.d0_7; F64.d0_3]).

(** [np.zeros((2, 3))] and [np.zeros((3,))] *)
Definition zeros_2_3 : pyobj := nd [2; 3]%nat (repeat F64.zero 6).
Definition zeros_3 : pyobj := nd [3]%nat (repeat F64.zero 3).

(** ** Metric instances

    A concrete metric supplies the bodies of the four abstract methods.
    [S] is the instance's attribute store ([self.__dict__]); [V] is the
    type of the Python values the methods return (immediate values or
    references into the store).  A body may raise after it has already
    changed the store, so it returns the store in either case.

    An override of [update] declares its own default for [n]:
    [update_default] is that default, [None] when the override declares
    none.  The abstract signature [update(self, n=1)] declares 1. *)

Definition body (S A : Type) : Type := S -> outcome A * S.

Class Metric (S V : Type) : Type := {
  reset_body : body S unit;
  compute_body : pyobj -> pyobj -> body S V;
  update_default : option Z;
  update_body : Z -> body S unit;
  accumulate_body : body S V
}.

(** The calls that the code of [BaseMetric] itself makes, in order. *)
Inductive call : Type :=
| CallReset
| CallCompute (pred target : pyobj)
| CallUpdate (arg : option Z)
| CallAccumulate
| CallCheckType (pred target : pyobj)
| CallCheckMatch (pred target : pyobj)
| CallCheckPredRange (pred : pyobj)
| CallCheckPredSum (pred : pyobj).

Record config (S : Type) : Type := mk_config {
  attrs : S;
  calls : list call
}.

Arguments mk_config {S} attrs calls.
Arguments attrs {S} c.
Arguments calls {S} c.

(** Code running on an instance: it reads and writes the attribute store,
    appends to the record of calls, and returns or raises. *)
Definition M (S A : Type) : Type := config S -> outcome A * config S.

Definition ret {S A} (a : A) : M S A := fun cf => (Return a, cf).

Definition bind {S A B} (m : M S A) (k : A -> M S B) : M S B :=
  fun cf =>
    match m cf with
    | (Return a, cf') => k a cf'
    | (Raise e, cf') => (Raise e, cf')
    end.

Declare Scope metric_scope.
Delimit Scope metric_scope with metric.
Notation "x <- m ;; k" := (bind m (fun x => k))
  (at level 61, m at next level, right associativity) : metric_scope.
Notation "m ;;; k" := (bind m (fun _ => k))
  (at level 61, right associativity) : metric_scope.

(** A call is recorded, then its body runs on the store. *)
Definition invoke {S A} (c : call) (b : body S A) : M S A :=
  fun cf =>
    let (r, s') := b (attrs cf) in
    (r, mk_config s' (calls cf ++ [c])).

(** A static helper neither reads nor writes the store. *)
Definition static {S A} (r : outcome A) : body S A := fun s => (r, s).

(** Running base-class code from inside a method body ([super()]). *)
Definition super {S A} (m : M S A) : body S A :=
  fun s => let (r, cf) := m (mk_config s []) in (r, attrs cf).

Module BaseMetric.
Section Methods.

Context {S V : Type} {HM : Metric S V}.

Local Open Scope metric_scope.

(** [self.reset()], [self.compute(pred, target)], [self.accumulate()]:
    the methods are abstract, so the call lands in the instance's body. *)
Definition reset : M S unit := invoke CallReset reset_body.

Definition self_compute (pred target : pyobj) : M S V :=
  invoke (CallCompute pred target) (compute_body pred target).

Definition accumulate : M S V := invoke CallAccumulate accumulate_body.

(** [self.update()] and [self.update(n)].  The call lands in the
    instance's own [update], which binds [n] to the argument or, when
    there is none, to the default it declares; with no argument and no
    default the call is a [TypeError] and the body does not run. *)
Definition bind_n (arg : option Z) : option Z :=
  match arg with
  | Some n => Some n
  | None => update_default
  end.

Definition update (arg : option Z) : M S unit :=
  invoke (CallUpdate arg)
    match bind_n arg with
    | Some n => update_body n
    | None => static (Raise TypeError)
    end.

(** [def __init__(self): self.reset()] *)
Definition __init__ : M S unit := reset.

(** The body of the abstract [compute], reached through [super()]. *)
Definition compute (pred target : pyobj) : M S pyobj :=
  invoke (CallCheckType pred target) (static (_check_type pred target)) ;;;
  invoke (CallCheckMatch pred target) (static (_check_match pred target)) ;;;
  ret PyNone.

(** [def export(self): pass] *)
Definition export : M S pyobj := ret PyNone.

Definition __call__ (pred target : pyobj) : M S V :=
  current_state <- self_compute pred target ;;
  update None ;;;
  ret current_state.

(** The wrapper as the specification words it: [update] is run with the
    count 1. *)
Definition call_with_count_1 (pred target : pyobj) : M S V :=
  current_state <- self_compute pred target ;;
  update (Some 1) ;;;
  ret current_state.

End Methods.
End BaseMetric.

(** ** The life cycle of the specification, read off the record of calls *)

Inductive phase : Type := Fresh | Accumulating.

Definition phase_step (p : phase) (c : call) : phase :=
  match c with
  | CallReset => Fresh
  | CallUpdate _ => Accumulating
  | _ => p
  end.

Definition phase_of (cs : list call) (p0 : phase) : phase :=
  fold_left phase_step cs p0.

Definition is_reset (c : call) : bool :=
  match c with CallReset => true | _ => false end.

Definition is_range_or_sum_check (c : call) : bool :=
  match c with
  | CallCheckPredRange _ | CallCheckPredSum _ => true
  | _ => false
  end.

(** ** An example instance: the number of samples seen

    Not part of the repository; a small metric in the style the interface
    asks for, used to run the interface on concrete batches. *)

Module SampleCount.

Record store : Type := mk_store {
  current : Z;
  total : Z
}.

Definition reset_b : body store unit :=
  fun _ => (Return tt, mk_store 0 0).

Definition compute_b (pred target : pyobj) : body store Z :=
  fun s =>
    match super (BaseMetric.compute pred target) s with
    | (Raise e, s') => (Raise e, s')
    | (Return _, s') =>
        match leading_dim pred with
        | Some n => (Return (Z.of_nat n), mk_store (Z.of_nat n) (total s'))
        | None => (Raise IndexError, s')
        end
    end.

Definition update_b (n : Z) : body store unit :=
  fun s => (Return tt, mk_store (current s) (total s + current s * n)).

Definition accumulate_b : body store Z :=
  fun s => (Return (total s), s).

#[global] Instance metric : Metric store Z := {
  reset_body := reset_b;
  compute_body := compute_b;
  update_default := Some 1;
  update_body := update_b;
  accumulate_body := accumulate_b
}.

(** The same metric with [def update(self, n=3)]. *)
Definition metric_n3 : Metric store Z := {|
  reset_body := reset_b;
  compute_body := compute_b;
  update_default := Some 3;
  update_body := update_b;
  accumulate_body := accumulate_b
|}.

(** The store of an object on which no attribute has been set yet is
    immaterial here: [reset] overwrites both attributes. *)
Definition fresh_config : config store := mk_config (mk_store 0 0) [].

End SampleCount.

(** ** Further vocabulary: which objects fail where *)

(** Objects that have a [shape] attribute. *)
Definition has_shape (o : pyobj) : bool :=
  match o with
  | PyArray _ | PyXArray _ | NpFloat64 _ | NpFloat32 _ | NpInt64 _ => true
  | PyFloat _ | PyInt _ | PyList _ | PyNone => false
  end.

(** Objects whose [shape] is the empty tuple. *)
Definition zero_dim (o : pyobj) : bool :=
  match o with
  | PyArray a => match a_shape a with [] => true | _ :: _ => false end
  | PyXArray b => match x_shape b with [] => true | _ :: _ => false end
  | NpFloat64 _ | NpFloat32 _ | NpInt64 _ => true
  | PyFloat _ | PyInt _ | PyList _ | PyNone => false
  end.

(** [type(o) == np.ndarray] *)
Definition exact_ndarray (o : pyobj) : bool := pytype_eqb (type o) T_ndarray.


(** Zero of either sign or a positive finite number. *)
Definition finite_nonneg (x : F64.t) : bool :=
  match x with
  | S754_zero _ => true
  | S754_finite false _ _ => true
  | _ => false
  end.

(** Zero, a positive finite number or plus infinity. *)
Definition nonneg (x : F64.t) : bool :=
  match x with
  | S754_zero _ => true
  | S754_finite false _ _ => true
  | S754_infinity false => true
  | _ => false
  end.

(** * Properties *)

Example scenario_valid_batch :
  _check_match pred_07_03 target_0 = Return tt
  /\ _check_type pred_07_03 target_0 = Return tt
  /\ _check_pred_sum pred_07_03 = Return tt
  /\ _check_pred_range pred_07_03 = Return tt.
Proof. repeat split; vm_compute; reflexivity. Qed.

Example example_arrays_well_formed :
  forallb wf_array
    [mk_array Cndarray [1; 2]%nat [F64.d0_7; F64.d0_3];
     mk_array Cndarray [1; 2]%nat [F64.d1_2; F64.dm0_2];
     mk_array Cndarray [2; 2]%nat [F64.d0_5; F64.d0_5; F64.d0_9; F64.d0_3];
     mk_array Cmatrix [1; 2]%nat [F64.d0_7; F64.d0_3];
     mk_array Cndarray [0; 3]%nat []]
  = true.
Proof. vm_compute. reflexivity. Qed.

Example scenario_shape_2_3_vs_3 :
  _check_match zeros_2_3 zeros_3 = Raise ShapeMismatch.
Proof. vm_compute. reflexivity. Qed.

Example scenario_out_of_range :
  _check_pred_range pred_out_of_range = Raise RangeViolation.
Proof. vm_compute. reflexivity. Qed.

Example scenario_list_rejected :
  _check_type (PyList [PyList [PyFloat F64.d0_7; PyFloat F64.d0_3]]) target_0
  = Raise TypeMismatch.
Proof. vm_compute. reflexivity. Qed.

(** ** Basic facts about the vocabulary *)

Lemma pytype_eqb_eq (a b : pytype) : pytype_eqb a b = true <-> a = b.
Proof. split; [destruct a, b; simpl; congruence | intros ->; destruct b; reflexivity]. Qed.

Lemma pytype_eqb_neq (a b : pytype) : pytype_eqb a b = false <-> a <> b.
Proof.
  rewrite <- pytype_eqb_eq. destruct (pytype_eqb a b); split; congruence.
Qed.

Lemma py_assert_return (c : bool) (msg : string) :
  py_assert c msg = Return tt <-> c = true.
Proof. destruct c; simpl; split; congruence. Qed.

Lemma py_assert_raise (c : bool) (msg : string) :
  py_assert c msg = Raise (AssertionError msg) <-> c = false.
Proof. destruct c; simpl; split; congruence. Qed.

Lemma py_assert_raise_inv (c : bool) (msg : string) (e : exn) :
  py_assert c msg = Raise e -> e = AssertionError msg.
Proof. destruct c; simpl; congruence. Qed.

Lemma np_all_map {A} (f : A -> bool) (l : list A) :
  np_all (map f l) = forallb f l.
Proof. induction l as [|x l IH]; simpl; [reflexivity | now rewrite <- IH]. Qed.

Lemma forallb_andb {A} (f g : A -> bool) (l : list A) :
  forallb f l && forallb g l = forallb (fun x => f x && g x) l.
Proof.
  induction l as [|x l IH]; simpl; [reflexivity|].
  rewrite <- IH. destruct (f x), (g x), (forallb f l); simpl; reflexivity.
Qed.

Lemma forallb_false_exists {A} (f : A -> bool) (l : list A) :
  forallb f l = false <-> exists x, In x l /\ f x = false.
Proof.
  induction l as [|y l IH]; simpl.
  - split; [discriminate | intros (x & [] & _)].
  - rewrite andb_false_iff, IH. split.
    + intros [Hy | (x & Hin & Hx)]; eauto.
    + intros (x & [-> | Hin] & Hx); eauto.
Qed.

(** ** [_check_type] *)

Lemma check_type_raise_iff (pred target : pyobj) :
  _check_type pred target = Raise TypeMismatch
  <-> type pred <> T_ndarray \/ type target <> T_ndarray.
Proof.
  unfold _check_type, TypeMismatch.
  rewrite py_assert_raise, andb_false_iff, !pytype_eqb_neq. reflexivity.
Qed.

Lemma check_type_return_iff (pred target : pyobj) :
  _check_type pred target = Return tt
  <-> type pred = T_ndarray /\ type target = T_ndarray.
Proof.
  unfold _check_type.
  rewrite py_assert_return, andb_true_iff, !pytype_eqb_eq. reflexivity.
Qed.

(** C4: [_check_type] fails with the type-mismatch assertion exactly when
    [type(pred)] or [type(target)] is not [numpy.ndarray]; it returns
    exactly when both are, and it fails in no other way. *)
Theorem check_type_raises_iff_not_ndarray (pred target : pyobj) :
  (_check_type pred target = Raise TypeMismatch
     <-> type pred <> T_ndarray \/ type target <> T_ndarray)
  /\ (_check_type pred target = Return tt
     <-> type pred = T_ndarray /\ type target = T_ndarray)
  /\ (forall e, _check_type pred target = Raise e -> e = TypeMismatch).
Proof.
  split; [apply check_type_raise_iff|].
  split; [apply check_type_return_iff|].
  intros e. apply py_assert_raise_inv.
Qed.

Lemma proper_subclass_neq (c d : pytype) :
  proper_subclass c d = true -> c <> d.
Proof.
  unfold proper_subclass. intros E. apply andb_true_iff in E as [_ E].
  apply negb_true_iff in E. now apply pytype_eqb_neq.
Qed.

(** C8: the comparison is on the exact type.  An argument whose type is a
    proper subclass of [numpy.ndarray], although an array, makes
    [_check_type] fail, in either position and whatever the other
    argument is. *)
Theorem check_type_rejects_subclasses (x other : pyobj)
    (Hsub : proper_subclass (type x) T_ndarray = true) :
  (exists a, x = PyArray a)
  /\ _check_type x other = Raise TypeMismatch
  /\ _check_type other x = Raise TypeMismatch.
Proof.
  pose proof (proper_subclass_neq _ _ Hsub) as Hne.
  repeat split.
  - destruct x as [a| | | | | | | | ]; try discriminate Hsub. now exists a.
  - apply check_type_raise_iff. now left.
  - apply check_type_raise_iff. now right.
Qed.

Lemma check_type_rejects_subclasses_witness :
  proper_subclass (type pred_matrix) T_ndarray = true
  /\ _check_type pred_matrix target_0 = Raise TypeMismatch.
Proof.
  split; [reflexivity|].
  apply (check_type_rejects_subclasses pred_matrix target_0). reflexivity.
Defined.

(** ** [_check_match] *)

Lemma leading_dim_shape (o : pyobj) (n : nat) :
  leading_dim o = Some n <->
  (ps <- getattr_shape o ;; tuple_getitem ps 0) = Return n.
Proof.
  destruct o as [a| | | | | |b| | ]; simpl; try (split; discriminate);
    unfold tuple_getitem;
    [destruct (a_shape a) as [|d sh] | destruct (x_shape b) as [|d sh]];
    simpl; split; congruence.
Qed.

Lemma check_match_unfold (pred target : pyobj) :
  _check_match pred target =
  match leading_dim pred, leading_dim target with
  | Some m, Some n => py_assert (Nat.eqb m n) msg_match
  | Some _, None =>
      (ts <- getattr_shape target ;; tuple_getitem ts 0) ;;; Return tt
  | None, _ =>
      (ps <- getattr_shape pred ;; tuple_getitem ps 0) ;;; Return tt
  end.
Proof.
  unfold _check_match.
  destruct pred as [a| | | | | |a| | ]; simpl; try reflexivity;
    [destruct (a_shape a) as [|d sh] | destruct (x_shape a) as [|d sh]];
    simpl; try reflexivity;
    (destruct target as [b| | | | | |b| | ]; simpl; try reflexivity;
     [destruct (a_shape b) as [|d' sh'] | destruct (x_shape b) as [|d' sh']];
     simpl; reflexivity).
Qed.

Lemma no_leading_dim_raises (o : pyobj) :
  leading_dim o = None ->
  exists e, (ps <- getattr_shape o ;; tuple_getitem ps 0) = Raise e
            /\ e <> ShapeMismatch.
Proof.
  destruct o as [a| | | | | |b| | ]; simpl; intros E;
    try (eexists; split; [reflexivity | discriminate]).
  - destruct (a_shape a); [|discriminate].
    eexists; split; [reflexivity | discriminate].
  - destruct (x_shape b); [|discriminate].
    eexists; split; [reflexivity | discriminate].
Qed.

(** C5: [_check_match] fails with the shape-mismatch assertion exactly when
    both arguments have a leading dimension and the two differ; it returns
    exactly when both have one and the two are equal. *)
Theorem check_match_raises_iff_leading_dims_differ (pred target : pyobj) :
  (_check_match pred target = Raise ShapeMismatch
     <-> exists m n, leading_dim pred = Some m /\ leading_dim target = Some n
                     /\ m <> n)
  /\ (_check_match pred target = Return tt
     <-> exists n, leading_dim pred = Some n /\ leading_dim target = Some n).
Proof.
  rewrite check_match_unfold.
  destruct (leading_dim pred) as [m|] eqn:Ep;
    [destruct (leading_dim target) as [n|] eqn:Et|].
  - unfold ShapeMismatch. rewrite py_assert_raise, py_assert_return.
    rewrite Nat.eqb_neq, Nat.eqb_eq. split; split.
    + intros Hne. now exists m, n.
    + intros (m' & n' & [= <-] & [= <-] & Hne). exact Hne.
    + intros ->. now exists n.
    + intros (k & [= <-] & [= <-]). reflexivity.
  - destruct (no_leading_dim_raises target Et) as (e & -> & Hne). simpl.
    split; split; try congruence.
    + intros (? & ? & _ & [=] & _).
    + intros (? & _ & [=]).
  - destruct (no_leading_dim_raises pred Ep) as (e & -> & Hne). simpl.
    split; split; try congruence.
    + intros (? & ? & [=] & _).
    + intros (? & [=] & _).
Qed.

(** ** [_check_pred_range] *)

Lemma check_pred_range_array (a : array) :
  _check_pred_range (PyArray a)
  = py_assert (forallb in_unit_interval (a_data a)) msg_range.
Proof.
  unfold _check_pred_range, py_and, le_const_obj, le_obj_const, obind.
  rewrite !np_all_map. change (F64.of_Z 0) with F64.zero.
  change (F64.of_Z 1) with F64.one.
  unfold in_unit_interval. rewrite <- forallb_andb.
  destruct (forallb (fun x => F64.leb F64.zero x) (a_data a)); reflexivity.
Qed.

(** C6: on an array, [_check_pred_range] fails with the range assertion
    exactly when some element is outside [[0, 1]], and returns exactly
    when every element is inside. *)
Theorem check_pred_range_raises_iff_outside (a : array) :
  (_check_pred_range (PyArray a) = Raise RangeViolation
     <-> exists x, In x (a_data a) /\ in_unit_interval x = false)
  /\ (_check_pred_range (PyArray a) = Return tt
     <-> forall x, In x (a_data a) -> in_unit_interval x = true).
Proof.
  rewrite check_pred_range_array. unfold RangeViolation.
  rewrite py_assert_raise, py_assert_return.
  split; [apply forallb_false_exists | apply forallb_forall].
Qed.

(** C10: an array with no element passes the range check. *)
Theorem check_pred_range_empty (a : array)
    (Hwf : wf_array a = true)
    (Hsize : size_of_shape (a_shape a) = 0%nat) :
  _check_pred_range (PyArray a) = Return tt.
Proof.
  unfold wf_array in Hwf.
  apply andb_true_iff in Hwf as [Hwf _].
  apply andb_true_iff in Hwf as [Hlen _].
  apply Nat.eqb_eq in Hlen. rewrite Hsize in Hlen.
  apply length_zero_iff_nil in Hlen.
  rewrite check_pred_range_array, Hlen. reflexivity.
Qed.

Lemma check_pred_range_empty_witness :
  _check_pred_range (nd [0; 3]%nat []) = Return tt.
Proof.
  apply (check_pred_range_empty (mk_array Cndarray [0; 3]%nat []));
    reflexivity.
Defined.

(** ** [_check_pred_sum] *)

(** *** The summation order *)

Section PairwiseFacts.

Context {A : Type} (add : A -> A -> A) (zero : A).

Lemma lanes_loop_length (n : nat) :
  forall (xs : list A) (r : lanes),
    (List.length xs <= n)%nat ->
    (List.length (snd (lanes_loop add r xs)) < 8)%nat.
Proof.
  induction n as [n IH] using lt_wf_ind. intros xs r Hn.
  destruct xs as [|a0 [|a1 [|a2 [|a3 [|a4 [|a5 [|a6 [|a7 rest]]]]]]]];
    simpl; try lia.
  apply (IH (List.length rest)); simpl in Hn; lia.
Qed.

Lemma split_point_bounds (n : nat) :
  (PW_BLOCKSIZE < n)%nat ->
  (0 < split_point n < n)%nat /\ (n - split_point n < n)%nat.
Proof.
  unfold PW_BLOCKSIZE, split_point. intros Hn.
  pose proof (Nat.mod_upper_bound (n / 2) 8 ltac:(lia)) as Hm.
  assert (Hd : (n / 2 <= n / 2 * 2)%nat) by lia.
  pose proof (Nat.Div0.mul_div_le n 2) as Hle.
  assert (H64 : (64 <= n / 2)%nat).
  { apply Nat.div_le_lower_bound; lia. }
  lia.
Qed.

(** Fuel at least the length of the buffer is never used up. *)
Lemma pairwise_fuel_enough (k1 : nat) :
  forall (k2 : nat) (xs : list A),
    (List.length xs <= k1)%nat -> (List.length xs <= k2)%nat ->
    pairwise_fuel add zero k1 xs = pairwise_fuel add zero k2 xs.
Proof.
  induction k1 as [|k1 IH]; intros k2 xs H1 H2.
  - destruct xs; [|simpl in H1; lia]. destruct k2; reflexivity.
  - destruct (Nat.leb_spec (List.length xs) PW_BLOCKSIZE) as [Hs|Hs].
    + destruct k2; simpl;
        (destruct (Nat.leb_spec (List.length xs) PW_BLOCKSIZE); [|lia]);
        reflexivity.
    + destruct k2 as [|k2]; [unfold PW_BLOCKSIZE in Hs; lia|].
      simpl. destruct (Nat.leb_spec (List.length xs) PW_BLOCKSIZE); [lia|].
      destruct (split_point_bounds _ Hs) as [Hsp Hrest].
      rewrite (IH k2 (firstn _ xs)), (IH k2 (skipn _ xs)); try reflexivity;
        rewrite ?length_firstn, ?length_skipn; lia.
Qed.

Lemma pairwise_fuel_small (fuel : nat) (xs : list A) :
  (List.length xs <= PW_BLOCKSIZE)%nat ->
  pairwise_fuel add zero fuel xs = block_sum add zero xs.
Proof.
  intros Hs. destruct fuel; simpl;
    (destruct (Nat.leb_spec (List.length xs) PW_BLOCKSIZE); [|lia]);
    reflexivity.
Qed.

Lemma pairwise_fuel_big (k : nat) (xs : list A) :
  (PW_BLOCKSIZE < List.length xs)%nat ->
  pairwise_fuel add zero (Datatypes.S k) xs
  = add (pairwise_fuel add zero k
           (firstn (split_point (List.length xs)) xs))
        (pairwise_fuel add zero k
           (skipn (split_point (List.length xs)) xs)).
Proof.
  intros Hs. simpl.
  destruct (Nat.leb_spec (List.length xs) PW_BLOCKSIZE); [lia|].
  reflexivity.
Qed.

(** numpy's recursion: the sum of a buffer longer than the block size is
    the sum of the sums of its two parts. *)
Lemma pairwise_sum_unfold (xs : list A) :
  pairwise_sum add zero xs
  = if (List.length xs <=? PW_BLOCKSIZE)%nat then block_sum add zero xs
    else add (pairwise_sum add zero
                (firstn (split_point (List.length xs)) xs))
             (pairwise_sum add zero
                (skipn (split_point (List.length xs)) xs)).
Proof.
  unfold pairwise_sum.
  destruct (Nat.leb_spec (List.length xs) PW_BLOCKSIZE) as [Hs|Hs].
  - now apply pairwise_fuel_small.
  - destruct (split_point_bounds _ Hs) as [Hsp Hrest].
    remember (List.length xs) as n eqn:En.
    destruct n as [|k]; [unfold PW_BLOCKSIZE in Hs; lia|].
    rewrite pairwise_fuel_big by lia. rewrite <- En.
    f_equal; apply pairwise_fuel_enough;
      rewrite ?length_firstn, ?length_skipn; lia.
Qed.

(** A property of the elements that [add] preserves holds of the sum. *)
Section Closed.

Variable P : A -> Prop.
Hypothesis P_add : forall x y, P x -> P y -> P (add x y).

Lemma sum_from_closed (xs : list A) :
  forall acc, P acc -> Forall P xs -> P (sum_from add acc xs).
Proof.
  unfold sum_from. induction xs as [|x xs IH]; intros acc Hacc Hxs; simpl.
  - exact Hacc.
  - inversion Hxs; subst. apply IH; auto.
Qed.

Definition lanes_all (r : lanes) : Prop :=
  P (r0 r) /\ P (r1 r) /\ P (r2 r) /\ P (r3 r)
  /\ P (r4 r) /\ P (r5 r) /\ P (r6 r) /\ P (r7 r).

Lemma lanes_loop_closed (n : nat) :
  forall (xs : list A) (r : lanes),
    (List.length xs <= n)%nat -> lanes_all r -> Forall P xs ->
    lanes_all (fst (lanes_loop add r xs))
    /\ Forall P (snd (lanes_loop add r xs)).
Proof.
  induction n as [n IH] using lt_wf_ind. intros xs r Hn Hr Hxs.
  destruct xs as [|a0 [|a1 [|a2 [|a3 [|a4 [|a5 [|a6 [|a7 rest]]]]]]]];
    simpl; try (split; assumption).
  repeat match goal with
         | H : Forall P (_ :: _) |- _ => inversion H; clear H; subst
         end.
  destruct Hr as (L0 & L1 & L2 & L3 & L4 & L5 & L6 & L7).
  apply (IH (List.length rest)); [simpl in Hn; lia | lia | | assumption].
  unfold lanes_all; simpl. repeat split; apply P_add; assumption.
Qed.

Lemma lanes_total_closed (r : lanes) : lanes_all r -> P (lanes_total add r).
Proof.
  intros (H0 & H1 & H2 & H3 & H4 & H5 & H6 & H7).
  unfold lanes_total. repeat apply P_add; assumption.
Qed.

Lemma block_sum_closed (xs : list A) :
  P zero -> Forall P xs -> P (block_sum add zero xs).
Proof.
  intros Hz Hxs. unfold block_sum.
  destruct xs as [|a0 [|a1 [|a2 [|a3 [|a4 [|a5 [|a6 [|a7 rest]]]]]]]];
    try (apply sum_from_closed; assumption).
  repeat match goal with
         | H : Forall P (_ :: _) |- _ => inversion H; clear H; subst
         end.
  destruct (lanes_loop_closed (List.length rest) rest
              (mk_lanes a0 a1 a2 a3 a4 a5 a6 a7)) as [Hl Ht];
    [lia | unfold lanes_all; simpl; tauto | assumption |].
  destruct (lanes_loop add (mk_lanes a0 a1 a2 a3 a4 a5 a6 a7) rest)
    as [r tail].
  apply sum_from_closed; [apply lanes_total_closed|]; assumption.
Qed.

Lemma Forall_firstn_skipn (k : nat) (xs : list A) :
  Forall P xs -> Forall P (firstn k xs) /\ Forall P (skipn k xs).
Proof.
  intros H. rewrite <- (firstn_skipn k xs) in H.
  now apply Forall_app in H.
Qed.

Lemma pairwise_fuel_closed (fuel : nat) :
  forall xs, P zero -> Forall P xs -> P (pairwise_fuel add zero fuel xs).
Proof.
  induction fuel as [|k IH]; intros xs Hz Hxs; simpl;
    destruct (List.length xs <=? PW_BLOCKSIZE)%nat;
    try (apply block_sum_closed; assumption).
  destruct (Forall_firstn_skipn (split_point (List.length xs)) xs Hxs).
  apply P_add; apply IH; assumption.
Qed.

Lemma reduce_add_closed (xs : list A) :
  P zero -> Forall P xs -> P (reduce_add add zero xs).
Proof.
  intros Hz Hxs. unfold reduce_add, pairwise_sum.
  apply P_add; [assumption|]. now apply pairwise_fuel_closed.
Qed.

End Closed.

End PairwiseFacts.

Lemma leb_add_zero_l (x : F64.t) :
  F64.leb (F64.add F64.zero x) F64.one = F64.leb x F64.one.
Proof. destruct x as [[]|[]| |s m e]; reflexivity. Qed.

Lemma np_sum_singleton (x : F64.t) :
  np_sum [x] = F64.add F64.zero (F64.add F64.zero x).
Proof. reflexivity. Qed.

(** What the check computes on an array with at least one row. *)
Lemma check_pred_sum_array (a : array) (n : nat) :
  hd_error (a_shape a) = Some (S n) ->
  _check_pred_sum (PyArray a)
  = py_assert (F64.leb (first_row_sum a) F64.one) msg_sum.
Proof.
  unfold _check_pred_sum, first_row_sum, first_row. simpl.
  destruct (a_shape a) as [|d rest]; [discriminate|].
  simpl. intros [= ->].
  destruct (a_cls a), rest as [|d1 rest]; simpl; try reflexivity.
  - destruct (a_data a) as [|x l]; simpl; [reflexivity|].
    now rewrite np_sum_singleton, !leb_add_zero_l.
  - destruct (a_data a) as [|x l]; simpl; [reflexivity|].
    now rewrite np_sum_singleton, !leb_add_zero_l.
Qed.

Lemma SFcompare_finite_antisym (x : F64.t) (m0 : positive) (e0 : Z) :
  SFcompare x (S754_finite false m0 e0) = Some Gt
  <-> SFcompare (S754_finite false m0 e0) x = Some Lt.
Proof.
  destruct x as [[]|[]| |[] m e]; unfold SFcompare;
    try (split; congruence).
  assert (Hm : Pos.compare_cont Eq m0 m = CompOpp (Pos.compare_cont Eq m m0))
    by (symmetry; apply (Pos.compare_cont_antisym m m0 Eq)).
  rewrite (Z.compare_antisym e e0), Hm.
  destruct (e ?= e0), (Pos.compare_cont Eq m m0); unfold CompOpp;
    split; congruence.
Qed.

Lemma SFcompare_one_antisym (x : F64.t) :
  SFcompare x F64.one = Some Gt <-> SFcompare F64.one x = Some Lt.
Proof. exact (SFcompare_finite_antisym x _ _). Qed.

Lemma SFcompare_finite_none (x : F64.t) (m0 : positive) (e0 : Z) :
  SFcompare x (S754_finite false m0 e0) = None -> x = S754_nan.
Proof.
  destruct x as [[]|[]| |[] m e]; unfold SFcompare;
    try discriminate; reflexivity.
Qed.

(** Not being at most 1 is exceeding 1 or being NaN. *)
Lemma not_leb_one (x : F64.t) :
  F64.leb x F64.one = false
  <-> F64.ltb F64.one x = true \/ F64.is_nan x = true.
Proof.
  unfold F64.leb, F64.ltb, SFleb, SFltb. split.
  - intros H. destruct (SFcompare x F64.one) as [[]|] eqn:E; try discriminate.
    + left. apply SFcompare_one_antisym in E. now rewrite E.
    + right. apply SFcompare_finite_none in E. now rewrite E.
  - intros [H|H].
    + destruct (SFcompare F64.one x) as [[]|] eqn:E; try discriminate.
      apply SFcompare_one_antisym in E. now rewrite E.
    + destruct x; try discriminate. reflexivity.
Qed.

(** C9: on an array whose leading dimension is 0 the access [pred[0]] is
    out of bounds, so [_check_pred_sum] ends in an [IndexError] and not in
    the sum assertion; on an array with at least one row it either returns
    or fails with the sum assertion. *)
Theorem check_pred_sum_empty_batch_index_error (a : array) (n : nat)
    (Hdim : leading_dim (PyArray a) = Some n) :
  (n = 0%nat ->
     _check_pred_sum (PyArray a) = Raise IndexError
     /\ _check_pred_sum (PyArray a) <> Raise SumViolation)
  /\ ((1 <= n)%nat ->
     _check_pred_sum (PyArray a) = Return tt
     \/ _check_pred_sum (PyArray a) = Raise SumViolation).
Proof.
  simpl in Hdim. split.
  - intros ->. unfold _check_pred_sum. simpl.
    destruct (a_shape a) as [|d rest]; [discriminate|].
    injection Hdim as ->. simpl. split; [reflexivity | discriminate].
  - intros Hn. destruct n as [|k]; [lia|].
    rewrite (check_pred_sum_array a k Hdim). unfold SumViolation.
    destruct (F64.leb (first_row_sum a) F64.one); simpl; auto.
Qed.

Lemma check_pred_sum_empty_batch_index_error_witness :
  _check_pred_sum (nd [0; 2]%nat []) = Raise IndexError
  /\ _check_pred_sum (nd [0; 2]%nat []) <> Raise SumViolation.
Proof.
  apply (check_pred_sum_empty_batch_index_error
           (mk_array Cndarray [0; 2]%nat []) 0%nat); reflexivity.
Defined.

(** C1, as stated, fails on [np.array([[nan, 0.5]])]: the sum of the first
    row is NaN, which does not exceed 1, and the sum assertion fails. *)
Lemma check_pred_sum_nan_counterexample :
  ~ (_check_pred_sum (PyArray pred_nan) = Raise SumViolation
     <-> F64.ltb F64.one (first_row_sum pred_nan) = true).
Proof.
  intros [Hraise _].
  assert (E : _check_pred_sum (PyArray pred_nan) = Raise SumViolation)
    by reflexivity.
  specialize (Hraise E). vm_compute in Hraise. discriminate.
Qed.

(** *** The other dtypes *)

Lemma leb32_add_zero_l (x : F32.t) :
  F32.leb (F32.add F32.zero x) F32.one = F32.leb x F32.one.
Proof. destruct x as [[]|[]| |s m e]; reflexivity. Qed.

Lemma np_sum32_singleton (x : F32.t) :
  np_sum32 [x] = F32.add F32.zero (F32.add F32.zero x).
Proof. reflexivity. Qed.

Lemma wrap_valid (z : I64.t) : I64.valid z = true -> I64.wrap z = z.
Proof.
  unfold I64.valid, I64.wrap, I64.min_int, I64.max_int. intros H.
  apply andb_true_iff in H as [H1 H2].
  apply Z.leb_le in H1, H2.
  rewrite Z.mod_small; lia.
Qed.

Lemma has_first_row_array (a : array) :
  has_first_row (PyArray a) = true
  <-> exists n, hd_error (a_shape a) = Some (S n).
Proof.
  unfold has_first_row. simpl.
  destruct (hd_error (a_shape a)) as [[|n]|]; split;
    try discriminate; try (intros [? [=]]); eauto.
Qed.

Lemma has_first_row_xarray (b : xarray) :
  has_first_row (PyXArray b) = true
  <-> exists n, hd_error (x_shape b) = Some (S n).
Proof.
  unfold has_first_row. simpl.
  destruct (hd_error (x_shape b)) as [[|n]|]; split;
    try discriminate; try (intros [? [=]]); eauto.
Qed.

Lemma check_pred_sum_no_row (a : array) :
  has_first_row (PyArray a) = false ->
  _check_pred_sum (PyArray a) = Raise IndexError.
Proof.
  unfold has_first_row, _check_pred_sum. simpl.
  destruct (a_shape a) as [|[|n] rest]; simpl; try reflexivity; discriminate.
Qed.

Lemma check_pred_sum_no_row_x (b : xarray) :
  has_first_row (PyXArray b) = false ->
  _check_pred_sum (PyXArray b) = Raise IndexError.
Proof.
  unfold has_first_row, _check_pred_sum. simpl.
  destruct (x_shape b) as [|[|n] rest]; simpl; try reflexivity; discriminate.
Qed.

(** What the check computes on an array of another dtype with a row. *)
Lemma check_pred_sum_xarray (b : xarray) (n : nat) :
  wf_xarray b = true ->
  hd_error (x_shape b) = Some (S n) ->
  _check_pred_sum (PyXArray b)
  = py_assert (num_le_one (xfirst_row_sum b)) msg_sum.
Proof.
  unfold wf_xarray, _check_pred_sum, xfirst_row_sum, xfirst_row. simpl.
  intros Hwf. apply andb_true_iff in Hwf as [_ Hval].
  destruct (x_shape b) as [|d rest]; [discriminate|].
  simpl. intros [= ->].
  destruct rest as [|d1 rest]; [|reflexivity].
  destruct (x_buf b) as [xs|zs]; simpl.
  - destruct xs as [|x l]; simpl; [reflexivity|].
    now rewrite np_sum32_singleton, !leb32_add_zero_l.
  - destruct zs as [|z l]; simpl; [reflexivity|].
    simpl in Hval. apply andb_true_iff in Hval as [Hz _].
    unfold np_sum_int. simpl. unfold I64.add.
    now rewrite Z.add_0_l, (wrap_valid z Hz).
Qed.

Lemma SFcompare_one32_antisym (x : F32.t) :
  SFcompare x F32.one = Some Gt <-> SFcompare F32.one x = Some Lt.
Proof. exact (SFcompare_finite_antisym x _ _). Qed.

Lemma num_not_le_one (s : num) :
  num_le_one s = false <-> num_gt_one s = true \/ num_is_nan s = true.
Proof.
  destruct s as [x|x|z]; simpl.
  - apply not_leb_one.
  - unfold F32.leb, F32.ltb, SFleb, SFltb. split.
    + intros H.
      destruct (SFcompare x F32.one) as [[]|] eqn:E; try discriminate.
      * left. apply SFcompare_one32_antisym in E. now rewrite E.
      * right. apply SFcompare_finite_none in E. now rewrite E.
    + intros [H|H].
      * destruct (SFcompare F32.one x) as [[]|] eqn:E; try discriminate.
        apply SFcompare_one32_antisym in E. now rewrite E.
      * destruct x; try discriminate. reflexivity.
  - rewrite Z.leb_gt, Z.ltb_lt. split; [auto | intros [H|H]; [exact H|discriminate]].
Qed.

(** C1, amended: [_check_pred_sum] fails with the sum assertion exactly
    when [pred] has a first row and the value [pred[0].sum()] returns for
    it is not at most 1, that is, exceeds 1 or is NaN; it returns whenever
    that value is at most 1; and its outcome is that of any array of the
    same shape with the same first row, whatever the later rows hold.
    This holds for float64 arrays of every class and for float32 and
    int64 arrays, whose sums are taken in their own dtype. *)
Theorem check_pred_sum_first_row_only :
  (forall a : array,
      (_check_pred_sum (PyArray a) = Raise SumViolation
       <-> has_first_row (PyArray a) = true
           /\ F64.leb (first_row_sum a) F64.one = false)
      /\ (_check_pred_sum (PyArray a) = Raise SumViolation
          <-> has_first_row (PyArray a) = true
              /\ (F64.ltb F64.one (first_row_sum a) = true
                  \/ F64.is_nan (first_row_sum a) = true))
      /\ (has_first_row (PyArray a) = true ->
          F64.leb (first_row_sum a) F64.one = true ->
          _check_pred_sum (PyArray a) = Return tt)
      /\ (forall a' : array,
             a_shape a' = a_shape a -> first_row a' = first_row a ->
             _check_pred_sum (PyArray a') = _check_pred_sum (PyArray a)))
  /\ (forall b : xarray,
         wf_xarray b = true ->
         (_check_pred_sum (PyXArray b) = Raise SumViolation
          <-> has_first_row (PyXArray b) = true
              /\ num_le_one (xfirst_row_sum b) = false)
         /\ (_check_pred_sum (PyXArray b) = Raise SumViolation
             <-> has_first_row (PyXArray b) = true
                 /\ (num_gt_one (xfirst_row_sum b) = true
                     \/ num_is_nan (xfirst_row_sum b) = true))
         /\ (has_first_row (PyXArray b) = true ->
             num_le_one (xfirst_row_sum b) = true ->
             _check_pred_sum (PyXArray b) = Return tt)
         /\ (forall b' : xarray,
                wf_xarray b' = true ->
                x_shape b' = x_shape b -> xfirst_row b' = xfirst_row b ->
                _check_pred_sum (PyXArray b')
                = _check_pred_sum (PyXArray b))).
Proof.
  split.
  - intros a.
    assert (H1 : _check_pred_sum (PyArray a) = Raise SumViolation
                 <-> has_first_row (PyArray a) = true
                     /\ F64.leb (first_row_sum a) F64.one = false).
    { destruct (has_first_row (PyArray a)) eqn:Hr.
      - apply has_first_row_array in Hr as [n Hn].
        rewrite (check_pred_sum_array a n Hn). unfold SumViolation.
        rewrite py_assert_raise. tauto.
      - rewrite (check_pred_sum_no_row a Hr).
        split; [discriminate | intros [[=] _]]. }
    split; [exact H1|]. split; [|split].
    + rewrite H1, not_leb_one. reflexivity.
    + intros Hr E. apply has_first_row_array in Hr as [n Hn].
      rewrite (check_pred_sum_array a n Hn). now apply py_assert_return.
    + intros a' Hshape Hrow.
      destruct (has_first_row (PyArray a)) eqn:Hr.
      * apply has_first_row_array in Hr as [n Hn].
        rewrite (check_pred_sum_array a n Hn).
        rewrite <- Hshape in Hn. rewrite (check_pred_sum_array a' n Hn).
        unfold first_row_sum. now rewrite Hrow.
      * rewrite (check_pred_sum_no_row a Hr).
        apply check_pred_sum_no_row.
        unfold has_first_row in *. simpl in *. now rewrite Hshape.
  - intros b Hwf.
    assert (H1 : _check_pred_sum (PyXArray b) = Raise SumViolation
                 <-> has_first_row (PyXArray b) = true
                     /\ num_le_one (xfirst_row_sum b) = false).
    { destruct (has_first_row (PyXArray b)) eqn:Hr.
      - apply has_first_row_xarray in Hr as [n Hn].
        rewrite (check_pred_sum_xarray b n Hwf Hn). unfold SumViolation.
        rewrite py_assert_raise. tauto.
      - rewrite (check_pred_sum_no_row_x b Hr).
        split; [discriminate | intros [[=] _]]. }
    split; [exact H1|]. split; [|split].
    + rewrite H1, num_not_le_one. reflexivity.
    + intros Hr E. apply has_first_row_xarray in Hr as [n Hn].
      rewrite (check_pred_sum_xarray b n Hwf Hn). now apply py_assert_return.
    + intros b' Hwf' Hshape Hrow.
      destruct (has_first_row (PyXArray b)) eqn:Hr.
      * apply has_first_row_xarray in Hr as [n Hn].
        rewrite (check_pred_sum_xarray b n Hwf Hn).
        rewrite <- Hshape in Hn.
        rewrite (check_pred_sum_xarray b' n Hwf' Hn).
        unfold xfirst_row_sum. now rewrite Hrow.
      * rewrite (check_pred_sum_no_row_x b Hr).
        apply check_pred_sum_no_row_x.
        unfold has_first_row in *. simpl in *. now rewrite Hshape.
Qed.

(** The later row sums above 1 and is not looked at; an int64 row whose
    sum wraps around to a negative number passes. *)
Lemma check_pred_sum_first_row_only_witness :
  (_check_pred_sum pred_bad_second_row = Return tt
   /\ F64.ltb F64.one
        (np_sum (later_rows (mk_array Cndarray [2; 2]%nat
                   [F64.d0_5; F64.d0_5; F64.d0_9; F64.d0_3]))) = true)
  /\ _check_pred_sum (PyXArray pred_int_wraps) = Return tt.
Proof.
  split; [split; [|vm_compute; reflexivity]|].
  - apply (proj1 (proj2 (proj2
             (proj1 check_pred_sum_first_row_only
                (mk_array Cndarray [2; 2]%nat
                   [F64.d0_5; F64.d0_5; F64.d0_9; F64.d0_3]))))).
    + reflexivity.
    + vm_compute. reflexivity.
  - apply (proj1 (proj2 (proj2
             (proj2 check_pred_sum_first_row_only pred_int_wraps
                eq_refl)))).
    + reflexivity.
    + vm_compute. reflexivity.
Defined.

(** ** The constructor, the body of [compute] and the call wrapper *)

Section Interface.

Context {S V : Type} `{Metric S V}.

Lemma invoke_unfold {A} (c : call) (b : body S A) (cf : config S) :
  invoke c b cf = (fst (b (attrs cf)),
                   mk_config (snd (b (attrs cf))) (calls cf ++ [c])).
Proof. unfold invoke. destruct (b (attrs cf)); reflexivity. Qed.

Lemma phase_of_app (cs ds : list call) (p : phase) :
  phase_of (cs ++ ds) p = phase_of ds (phase_of cs p).
Proof. apply fold_left_app. Qed.

Lemma filter_reset_app (cs ds : list call) :
  filter is_reset (cs ++ ds) = filter is_reset cs ++ filter is_reset ds.
Proof. apply filter_app. Qed.

(** C7: the constructor is one call of [reset] and nothing else.  On any
    instance store it returns (or raises) what [reset] does and leaves the
    store [reset] leaves; it adds exactly one call, a [reset], to the
    record, which puts the instance in the fresh phase. *)
Theorem init_invokes_reset_once (cf : config S) (p0 : phase) :
  BaseMetric.__init__ cf = BaseMetric.reset cf
  /\ BaseMetric.__init__ cf
     = (fst (reset_body (attrs cf)),
        mk_config (snd (reset_body (attrs cf))) (calls cf ++ [CallReset]))
  /\ List.length (filter is_reset (calls (snd (BaseMetric.__init__ cf))))
     = Datatypes.S (List.length (filter is_reset (calls cf)))
  /\ phase_of (calls (snd (BaseMetric.__init__ cf))) p0 = Fresh.
Proof.
  unfold BaseMetric.__init__, BaseMetric.reset.
  rewrite invoke_unfold. simpl. repeat split.
  - rewrite filter_reset_app, length_app. simpl. lia.
  - rewrite phase_of_app. reflexivity.
Qed.

(** C2, amended: calling the instance runs [compute(pred, target)], then
    [update()] with no argument, and returns the value [compute] returned.
    The count [update] works with is the default that the instance's own
    [update] declares: for an instance that keeps the declared default 1
    the outcome and the store are those of running [update(1)].  When
    [compute] raises, [update] is not run; when [update] raises, its
    exception is the outcome; the store is the one these two calls leave,
    and once [compute] has returned the instance is in the accumulating
    phase. *)
Theorem call_is_compute_then_update
    (pred target : pyobj) (cf : config S) (p0 : phase) :
  BaseMetric.__call__ pred target cf
  = match BaseMetric.self_compute pred target cf with
    | (Return v, cf1) =>
        match BaseMetric.update None cf1 with
        | (Return _, cf2) => (Return v, cf2)
        | (Raise e, cf2) => (Raise e, cf2)
        end
    | (Raise e, cf1) => (Raise e, cf1)
    end
  /\ BaseMetric.__call__ pred target cf
     = match compute_body pred target (attrs cf) with
       | (Return v, s1) =>
           let cs := calls cf ++ [CallCompute pred target; CallUpdate None] in
           match update_default with
           | Some n =>
               match update_body n s1 with
               | (Return _, s2) => (Return v, mk_config s2 cs)
               | (Raise e, s2) => (Raise e, mk_config s2 cs)
               end
           | None => (Raise TypeError, mk_config s1 cs)
           end
       | (Raise e, s1) =>
           (Raise e, mk_config s1 (calls cf ++ [CallCompute pred target]))
       end
  /\ (update_default = Some 1 ->
      fst (BaseMetric.__call__ pred target cf)
      = fst (BaseMetric.call_with_count_1 pred target cf)
      /\ attrs (snd (BaseMetric.__call__ pred target cf))
         = attrs (snd (BaseMetric.call_with_count_1 pred target cf)))
  /\ phase_of (calls (snd (BaseMetric.__call__ pred target cf))) p0
     = match fst (compute_body pred target (attrs cf)) with
       | Return _ => Accumulating
       | Raise _ => phase_of (calls cf) p0
       end.
Proof.
  unfold BaseMetric.__call__, BaseMetric.call_with_count_1,
    BaseMetric.self_compute, BaseMetric.update, BaseMetric.bind_n,
    bind, ret.
  rewrite invoke_unfold.
  destruct (compute_body pred target (attrs cf)) as [[v|e] s1]; simpl.
  - rewrite !invoke_unfold. simpl. rewrite <- !app_assoc. simpl.
    destruct update_default as [n|]; simpl.
    + destruct (update_body n s1) as [[u|e] s2] eqn:En; simpl;
        rewrite phase_of_app; repeat split; try reflexivity;
        match goal with
        | Hd : Some n = Some 1 |- _ =>
            injection Hd as ->; rewrite En; reflexivity
        end.
    + unfold static. simpl. rewrite phase_of_app.
      repeat split; try reflexivity; discriminate.
  - rewrite phase_of_app. repeat split; reflexivity.
Qed.

End Interface.

(** C2, as stated, fails for an instance whose [update] declares
    [n=3]: on a batch of two samples the wrapper leaves the total 6 in the
    store, where [update] run with the count 1 leaves 2. *)
Lemma call_default_count_counterexample :
  ~ (attrs (snd (BaseMetric.__call__ (HM := SampleCount.metric_n3)
                   zeros_2_3 (nd [2]%nat (repeat F64.zero 2))
                   SampleCount.fresh_config))
     = attrs (snd (BaseMetric.call_with_count_1 (HM := SampleCount.metric_n3)
                     zeros_2_3 (nd [2]%nat (repeat F64.zero 2))
                     SampleCount.fresh_config))).
Proof. vm_compute. discriminate. Qed.

Lemma call_is_compute_then_update_witness :
  fst (BaseMetric.__call__ (HM := SampleCount.metric)
         zeros_2_3 (nd [2]%nat (repeat F64.zero 2)) SampleCount.fresh_config)
  = fst (BaseMetric.call_with_count_1 (HM := SampleCount.metric)
           zeros_2_3 (nd [2]%nat (repeat F64.zero 2))
           SampleCount.fresh_config)
  /\ attrs (snd (BaseMetric.__call__ (HM := SampleCount.metric)
                   zeros_2_3 (nd [2]%nat (repeat F64.zero 2))
                   SampleCount.fresh_config))
     = attrs (snd (BaseMetric.call_with_count_1 (HM := SampleCount.metric)
                     zeros_2_3 (nd [2]%nat (repeat F64.zero 2))
                     SampleCount.fresh_config)).
Proof.
  apply (proj1 (proj2 (proj2
           (call_is_compute_then_update (H := SampleCount.metric)
              zeros_2_3 (nd [2]%nat (repeat F64.zero 2))
              SampleCount.fresh_config Fresh)))).
  reflexivity.
Defined.

Lemma filter_checks_app (cs ds : list call) :
  filter is_range_or_sum_check (cs ++ ds)
  = filter is_range_or_sum_check cs ++ filter is_range_or_sum_check ds.
Proof. apply filter_app. Qed.

(** C3: the body of the abstract [compute] calls [_check_type], then, if
    that returned, [_check_match], and nothing else: no range or sum check
    is added to the record of calls.  Its outcome is the first failure of
    the two checks, or [None]; the instance store is never written, also
    when the body is reached through [super()]. *)
Theorem compute_checks_type_then_match {S : Type}
    (pred target : pyobj) (cf : config S) :
  BaseMetric.compute pred target cf
  = match _check_type pred target with
    | Raise e =>
        (Raise e,
         mk_config (attrs cf) (calls cf ++ [CallCheckType pred target]))
    | Return _ =>
        let cs := calls cf ++ [CallCheckType pred target;
                               CallCheckMatch pred target] in
        match _check_match pred target with
        | Raise e => (Raise e, mk_config (attrs cf) cs)
        | Return _ => (Return PyNone, mk_config (attrs cf) cs)
        end
    end
  /\ attrs (snd (BaseMetric.compute pred target cf)) = attrs cf
  /\ filter is_range_or_sum_check
       (calls (snd (BaseMetric.compute pred target cf)))
     = filter is_range_or_sum_check (calls cf)
  /\ super (BaseMetric.compute pred target) (attrs cf)
     = ((_check_type pred target ;;; _check_match pred target ;;;
         Return PyNone)%outcome, attrs cf).
Proof.
  unfold super, BaseMetric.compute, bind, ret, invoke, static. simpl.
  destruct (_check_type pred target) as [u|e]; simpl.
  - rewrite <- app_assoc. simpl.
    destruct (_check_match pred target) as [u'|e']; simpl;
      rewrite filter_checks_app; simpl; rewrite app_nil_r; repeat split.
  - rewrite filter_checks_app. simpl. rewrite app_nil_r. repeat split.
Qed.

(** ** The interface on concrete batches *)

Example sample_count_call :
  BaseMetric.__call__ zeros_2_3 (nd [2]%nat (repeat F64.zero 2))
    (snd (BaseMetric.__init__ SampleCount.fresh_config))
  = (Return 2,
     mk_config (SampleCount.mk_store 2 2)
       [CallReset;
        CallCompute zeros_2_3 (nd [2]%nat (repeat F64.zero 2));
        CallUpdate None]).
Proof. vm_compute. reflexivity. Qed.

Example sample_count_call_phase :
  phase_of
    (calls (snd (BaseMetric.__call__ zeros_2_3 (nd [2]%nat (repeat F64.zero 2))
                   (snd (BaseMetric.__init__ SampleCount.fresh_config)))))
    Fresh
  = Accumulating.
Proof. vm_compute. reflexivity. Qed.

Example sample_count_call_same_as_compute :
  fst (BaseMetric.__call__ zeros_2_3 (nd [2]%nat (repeat F64.zero 2))
         SampleCount.fresh_config)
  = fst (BaseMetric.self_compute zeros_2_3 (nd [2]%nat (repeat F64.zero 2))
           SampleCount.fresh_config).
Proof. vm_compute. reflexivity. Qed.

Example sample_count_mismatch_leaves_store :
  BaseMetric.__call__ zeros_2_3 zeros_3
    (mk_config (SampleCount.mk_store 4 7) [])
  = (Raise ShapeMismatch,
     mk_config (SampleCount.mk_store 4 7) [CallCompute zeros_2_3 zeros_3]).
Proof. vm_compute. reflexivity. Qed.

(** ** The helpers on arbitrary objects *)

Local Ltac crush_iff :=
  repeat split; intros; simpl in *;
  repeat match goal with
         | H : _ /\ _ |- _ => destruct H
         | H : _ \/ _ |- _ => destruct H
         end;
  try discriminate; try congruence; auto;
  try (right; split; [discriminate | reflexivity]).

(** An object has a leading dimension, or is zero-dimensional, or has no
    [shape] at all. *)
Lemma leading_dim_cases (o : pyobj) :
  (exists n, leading_dim o = Some n
             /\ zero_dim o = false /\ has_shape o = true)
  \/ (leading_dim o = None /\ zero_dim o = true /\ has_shape o = true
      /\ (ps <- getattr_shape o ;; tuple_getitem ps 0) = Raise IndexError)
  \/ (leading_dim o = None /\ zero_dim o = false /\ has_shape o = false
      /\ (ps <- getattr_shape o ;; tuple_getitem ps 0)
         = Raise AttributeError).
Proof.
  destruct o as [[c [|d sh] dat]| | | | | |[[|d sh] buf]| | ]; simpl;
    try (left; eexists; repeat split; reflexivity);
    try (right; left; repeat split; reflexivity);
    right; right; repeat split; reflexivity.
Qed.

(** X1: what [_check_match] does with operands that have no leading
    dimension.  It asks [pred] first: an [AttributeError] comes from a
    [pred] without [shape], or from such a [target] once [pred] has shown a
    leading dimension; an [IndexError] from a zero-dimensional operand in
    the same order.  It never raises a [TypeError]. *)
Theorem check_match_error_taxonomy (pred target : pyobj) :
  (_check_match pred target = Raise AttributeError
     <-> has_shape pred = false
         \/ (leading_dim pred <> None /\ has_shape target = false))
  /\ (_check_match pred target = Raise IndexError
     <-> zero_dim pred = true
         \/ (leading_dim pred <> None /\ zero_dim target = true))
  /\ _check_match pred target <> Raise TypeError.
Proof.
  rewrite check_match_unfold.
  destruct (leading_dim_cases pred)
    as [(m & Ep & Zp & Sp) | [(Ep & Zp & Sp & Lp) | (Ep & Zp & Sp & Lp)]];
    destruct (leading_dim_cases target)
      as [(n & Et & Zt & St) | [(Et & Zt & St & Lt) | (Et & Zt & St & Lt)]];
    rewrite ?Et, ?Ep, ?Zp, ?Zt, ?Sp, ?St, ?Lp, ?Lt;
    simpl; try destruct (Nat.eqb m n); simpl; crush_iff.
Qed.

(** X2: the outcome of the body of the abstract [compute], read off its
    arguments.  An operand that is not exactly an [ndarray] gives the type
    assertion, whatever the shapes are; two [ndarray]s with leading
    dimensions give the match assertion or [None]; a zero-dimensional
    [ndarray] gets past the type check and ends in an [IndexError].  The
    type check screens out every object without a [shape], so the body
    never raises an [AttributeError] or a [TypeError]. *)
Theorem compute_outcome {S : Type} (pred target : pyobj) (cf : config S) :
  fst (BaseMetric.compute pred target cf)
  = (if exact_ndarray pred && exact_ndarray target then
       match leading_dim pred, leading_dim target with
       | Some m, Some n =>
           if Nat.eqb m n then Return PyNone else Raise ShapeMismatch
       | _, _ => Raise IndexError
       end
     else Raise TypeMismatch)
  /\ fst (BaseMetric.compute pred target cf) <> Raise AttributeError
  /\ fst (BaseMetric.compute pred target cf) <> Raise TypeError.
Proof.
  unfold BaseMetric.compute, bind, ret, invoke, static, exact_ndarray,
    _check_type.
  simpl.
  destruct (pytype_eqb (type pred) T_ndarray) eqn:Ep; simpl;
    [|repeat split; discriminate].
  destruct (pytype_eqb (type target) T_ndarray) eqn:Et; simpl;
    [|repeat split; discriminate].
  rewrite check_match_unfold.
  assert (Hs : forall o, pytype_eqb (type o) T_ndarray = true ->
                         has_shape o = true).
  { intros [[[] sh dat]| | | | | | | | ]; simpl; congruence. }
  apply Hs in Ep, Et.
  destruct (leading_dim_cases pred)
    as [(m & Hp & _ & _) | [(Hp & _ & _ & Lp) | (_ & _ & Sp & _)]];
    [| |congruence];
    (destruct (leading_dim_cases target)
       as [(n & Ht & _ & _) | [(Ht & _ & _ & Lt) | (_ & _ & St & _)]];
     [| |congruence]);
    rewrite ?Ht, ?Hp, ?Lp, ?Lt;
    simpl; try (repeat split; discriminate).
  unfold ShapeMismatch.
  destruct (Nat.eqb m n); simpl; repeat split; discriminate.
Qed.

(** X3: swapping the operands changes neither verdict.  [_check_type] has
    the same outcome either way; [_check_match] returns, or fails with the
    match assertion, for [(pred, target)] exactly when it does for
    [(target, pred)].  (Its other exceptions depend on the order.) *)
Theorem checks_symmetric (pred target : pyobj) :
  _check_type pred target = _check_type target pred
  /\ (_check_match pred target = Return tt
      <-> _check_match target pred = Return tt)
  /\ (_check_match pred target = Raise ShapeMismatch
      <-> _check_match target pred = Raise ShapeMismatch).
Proof.
  split.
  - unfold _check_type. now rewrite andb_comm.
  - rewrite !check_match_unfold. unfold ShapeMismatch.
    destruct (leading_dim_cases pred)
      as [(m & Hp & _ & _) | [(Hp & _ & _ & Lp) | (Hp & _ & _ & Lp)]];
      destruct (leading_dim_cases target)
        as [(n & Ht & _ & _) | [(Ht & _ & _ & Lt) | (Ht & _ & _ & Lt)]];
      rewrite ?Ht, ?Hp, ?Lp, ?Lt;
      simpl; try (repeat split; intros; discriminate).
    rewrite (Nat.eqb_sym n m). repeat split; auto.
Qed.

(** ** The range check on scalars, lists and its guarantee on arrays *)

Lemma leb_zero_nonneg (s0 : bool) (x : F64.t) :
  SFleb (S754_zero s0) x = true -> nonneg x = true.
Proof.
  unfold SFleb, SFcompare.
  destruct x as [s|[]| |[] m e]; try reflexivity; discriminate.
Qed.

Lemma leb_finite_not_inf (x : F64.t) (m0 : positive) (e0 : Z) :
  SFleb x (S754_finite false m0 e0) = true -> x <> S754_infinity false.
Proof.
  unfold SFleb, SFcompare. intros H ->. discriminate.
Qed.

Lemma in_unit_interval_finite_nonneg (x : F64.t) :
  in_unit_interval x = true -> finite_nonneg x = true.
Proof.
  unfold in_unit_interval, F64.leb. intros H.
  apply andb_true_iff in H as [H0 H1].
  apply leb_zero_nonneg in H0. apply leb_finite_not_inf in H1.
  destruct x as [s|[]| |[] m e]; try reflexivity; try discriminate.
  now contradiction H1.
Qed.

(** X4: what passing the range check guarantees.  Every element of an
    array that passes is a zero or a positive finite number: none is NaN,
    infinite or negative. *)
Theorem range_check_elements_finite (a : array) (x : F64.t)
    (Hpass : _check_pred_range (PyArray a) = Return tt)
    (Hin : In x (a_data a)) :
  finite_nonneg x = true /\ F64.is_nan x = false /\ F64.leb x F64.one = true.
Proof.
  rewrite check_pred_range_array in Hpass.
  apply py_assert_return in Hpass.
  rewrite forallb_forall in Hpass. specialize (Hpass x Hin).
  pose proof (in_unit_interval_finite_nonneg x Hpass) as Hf.
  unfold in_unit_interval in Hpass. apply andb_true_iff in Hpass as [_ H1].
  repeat split; try assumption.
  destruct x as [s|[]| |[] m e]; try reflexivity; discriminate.
Qed.

Lemma range_check_elements_finite_witness :
  finite_nonneg F64.d0_3 = true /\ F64.is_nan F64.d0_3 = false
  /\ F64.leb F64.d0_3 F64.one = true.
Proof.
  apply (range_check_elements_finite
           (mk_array Cndarray [1; 2]%nat [F64.d0_7; F64.d0_3]) F64.d0_3).
  - vm_compute. reflexivity.
  - simpl. right. left. reflexivity.
Defined.




Lemma check_pred_range_xarray (b : xarray) :
  _check_pred_range (PyXArray b)
  = py_assert (buf_in_unit_interval (x_buf b)) msg_range.
Proof.
  unfold _check_pred_range, py_and, le_const_obj, le_obj_const, obind,
    buf_in_unit_interval.
  destruct (x_buf b) as [xs|zs]; rewrite !np_all_map.
  - change (F32.of_Z 0) with F32.zero. change (F32.of_Z 1) with F32.one.
    unfold in_unit_interval32. rewrite <- forallb_andb.
    destruct (forallb (fun x => F32.leb F32.zero x) xs); reflexivity.
  - unfold in_unit_interval_int.
    rewrite <- (forallb_andb (fun z => (0 <=? z)%Z) (fun z => (z <=? 1)%Z)).
    destruct (forallb (fun z => (0 <=? z)%Z) zs); reflexivity.
Qed.






(** ** The sum check on arbitrary objects *)






(** ** Sums of non-negative values *)

Section NonNegativeSums.

Variables prec emax : Z.

Lemma iter_pos_invariant {A : Type} (P : A -> Prop) (f : A -> A) :
  (forall x, P x -> P (f x)) ->
  forall (n : positive) (x : A), P x -> P (iter_pos f n x).
Proof.
  intros Hf. induction n as [n IH|n IH|]; intros x Hx; simpl; auto.
Qed.

Lemma shr_1_nonneg (mrs : shr_record) :
  0 <= shr_m mrs -> 0 <= shr_m (shr_1 mrs).
Proof.
  destruct mrs as [m r s]. simpl.
  destruct m as [|[p|p|]|[p|p|]]; simpl; lia.
Qed.

Lemma shr_nonneg (mrs : shr_record) (e n : Z) :
  0 <= shr_m mrs -> 0 <= shr_m (fst (shr mrs e n)).
Proof.
  intros H. destruct n as [|p|p]; simpl; try assumption.
  apply (iter_pos_invariant (fun r => 0 <= shr_m r)); [|assumption].
  apply shr_1_nonneg.
Qed.

Lemma shr_fexp_nonneg (m e : Z) (l : location) :
  0 <= m -> 0 <= shr_m (fst (shr_fexp prec emax m e l)).
Proof.
  intros H. unfold shr_fexp. apply shr_nonneg.
  destruct l as [|[]]; simpl; assumption.
Qed.

Lemma round_nearest_even_nonneg (m : Z) (l : location) :
  0 <= m -> 0 <= round_nearest_even m l.
Proof.
  intros H. destruct l as [|[]]; simpl; try lia.
  destruct (Z.even m); lia.
Qed.

Lemma binary_round_aux_nonneg (m e : Z) (l : location) :
  0 <= m -> nonneg (binary_round_aux prec emax false m e l) = true.
Proof.
  intros H. unfold binary_round_aux.
  pose proof (shr_fexp_nonneg m e l H) as H1.
  destruct (shr_fexp prec emax m e l) as [mrs' e']. simpl in H1.
  pose proof (shr_fexp_nonneg _ e' loc_Exact
                (round_nearest_even_nonneg _ (loc_of_shr_record mrs') H1))
    as H2.
  destruct (shr_fexp prec emax
              (round_nearest_even (shr_m mrs') (loc_of_shr_record mrs'))
              e' loc_Exact) as [mrs'' e''].
  simpl in H2. destruct (shr_m mrs'') as [|p|p]; [reflexivity| |lia].
  destruct (e'' <=? emax - prec); reflexivity.
Qed.

Lemma binary_round_nonneg (m : positive) (e : Z) :
  nonneg (binary_round prec emax false m e) = true.
Proof.
  unfold binary_round.
  destruct (shl_align m e (fexp prec emax (Z.pos (digits2_pos m) + e)))
    as [mz ez].
  apply binary_round_aux_nonneg. lia.
Qed.

Lemma SFadd_nonneg (x y : spec_float) :
  nonneg x = true -> nonneg y = true ->
  nonneg (SFadd prec emax x y) = true.
Proof.
  destruct x as [sx|[]| |[] mx ex]; try discriminate;
    destruct y as [sy|[]| |[] my ey]; try discriminate; intros _ _;
    try reflexivity.
  - destruct sx, sy; reflexivity.
  - unfold SFadd, cond_Zopp. cbv zeta.
    change (Z.pos ?a + Z.pos ?b) with (Z.pos (a + b)).
    apply binary_round_nonneg.
Qed.

End NonNegativeSums.

Lemma forallb_Forall {A} (f : A -> bool) (l : list A) :
  forallb f l = true -> Forall (fun x => f x = true) l.
Proof. rewrite forallb_forall, Forall_forall. auto. Qed.

(** numpy's sum of non-negative values is non-negative, in either
    precision. *)
Lemma np_sum_nonneg (xs : list F64.t) :
  forallb nonneg xs = true -> nonneg (np_sum xs) = true.
Proof.
  intros H. unfold np_sum.
  apply (reduce_add_closed F64.add F64.zero (fun x => nonneg x = true)).
  - intros x y. apply SFadd_nonneg.
  - reflexivity.
  - now apply forallb_Forall.
Qed.

Lemma np_sum32_nonneg (xs : list F32.t) :
  forallb nonneg xs = true -> nonneg (np_sum32 xs) = true.
Proof.
  intros H. unfold np_sum32.
  apply (reduce_add_closed F32.add F32.zero (fun x => nonneg x = true)).
  - intros x y. apply SFadd_nonneg.
  - reflexivity.
  - now apply forallb_Forall.
Qed.

Lemma nonneg_not_nan (x : F64.t) : nonneg x = true -> F64.is_nan x = false.
Proof. destruct x as [s|[]| |[] m e]; simpl; congruence. Qed.

Lemma forallb_firstn {A} (f : A -> bool) (k : nat) (l : list A) :
  forallb f l = true -> forallb f (firstn k l) = true.
Proof.
  revert k. induction l as [|x l IH]; intros [|k] H; simpl; try reflexivity.
  simpl in H. apply andb_true_iff in H as [Hx Hl].
  now rewrite Hx, IH.
Qed.

Lemma forallb_impl {A} (f g : A -> bool) (l : list A) :
  (forall x, f x = true -> g x = true) ->
  forallb f l = true -> forallb g l = true.
Proof.
  intros Hfg. induction l as [|x l IH]; simpl; [reflexivity|].
  intros H. apply andb_true_iff in H as [Hx Hl].
  now rewrite (Hfg x Hx), IH.
Qed.

Lemma finite_nonneg_nonneg (x : F64.t) :
  finite_nonneg x = true -> nonneg x = true.
Proof. destruct x as [s|[]| |[] m e]; simpl; congruence. Qed.

Lemma in_unit_interval32_nonneg (x : F32.t) :
  in_unit_interval32 x = true -> nonneg x = true.
Proof.
  unfold in_unit_interval32, F32.leb. intros H.
  apply andb_true_iff in H as [H0 _]. now apply leb_zero_nonneg in H0.
Qed.

(** X7: after the range check the sum check fails only on a sum above 1.
    When an array with at least one row passes [_check_pred_range], the
    value [pred[0].sum()] returns for its first row is not NaN (for a
    float dtype it is zero, positive or plus infinity), so
    [_check_pred_sum] fails with the sum assertion exactly when that
    value exceeds 1.  This holds for float64 arrays and for float32 and
    int64 arrays. *)
Theorem range_check_then_sum_check :
  (forall (a : array) (n : nat),
      leading_dim (PyArray a) = Some (S n) ->
      _check_pred_range (PyArray a) = Return tt ->
      nonneg (first_row_sum a) = true
      /\ F64.is_nan (first_row_sum a) = false
      /\ (_check_pred_sum (PyArray a) = Raise SumViolation
          <-> F64.ltb F64.one (first_row_sum a) = true))
  /\ (forall (b : xarray) (n : nat),
         wf_xarray b = true ->
         leading_dim (PyXArray b) = Some (S n) ->
         _check_pred_range (PyXArray b) = Return tt ->
         num_is_nan (xfirst_row_sum b) = false
         /\ (_check_pred_sum (PyXArray b) = Raise SumViolation
             <-> num_gt_one (xfirst_row_sum b) = true)).
Proof.
  split.
  - intros a n Hdim Hrange.
    rewrite check_pred_range_array in Hrange.
    apply py_assert_return in Hrange.
    assert (Hnn : nonneg (first_row_sum a) = true).
    { unfold first_row_sum. apply np_sum_nonneg.
      unfold first_row. apply forallb_firstn.
      apply (forallb_impl in_unit_interval); [|exact Hrange].
      intros x Hx. now apply finite_nonneg_nonneg,
                     in_unit_interval_finite_nonneg. }
    pose proof (nonneg_not_nan _ Hnn) as Hnan.
    repeat split; try assumption.
    + intros E. simpl in Hdim.
      rewrite (check_pred_sum_array a n Hdim) in E.
      apply py_assert_raise, not_leb_one in E.
      destruct E as [E|E]; [exact E | congruence].
    + intros E. simpl in Hdim.
      rewrite (check_pred_sum_array a n Hdim).
      apply py_assert_raise, not_leb_one. now left.
  - intros b n Hwf Hdim Hrange. simpl in Hdim.
    rewrite check_pred_range_xarray in Hrange.
    apply py_assert_return in Hrange.
    rewrite (check_pred_sum_xarray b n Hwf Hdim). unfold SumViolation.
    rewrite py_assert_raise, num_not_le_one.
    assert (Hnan : num_is_nan (xfirst_row_sum b) = false).
    { unfold xfirst_row_sum, xfirst_row.
      destruct (x_buf b) as [xs|zs]; simpl; [|reflexivity].
      apply nonneg_not_nan, np_sum32_nonneg, forallb_firstn.
      apply (forallb_impl in_unit_interval32); [|exact Hrange].
      apply in_unit_interval32_nonneg. }
    split; [exact Hnan|]. rewrite Hnan.
    split; [intros [E|E]; [exact E | discriminate] | now left].
Qed.

(** A row of nine in range whose numpy sum is [1 + 2**-52], and a float32
    array whose first row sums to 1.25. *)
Lemma range_check_then_sum_check_witness :
  _check_pred_sum (nd [1; 9]%nat row_pairwise_above_one)
  = Raise SumViolation
  /\ _check_pred_sum (PyXArray pred_f32) = Raise SumViolation.
Proof.
  split.
  - apply (proj1 range_check_then_sum_check
             (mk_array Cndarray [1; 9]%nat row_pairwise_above_one) 0%nat
             eq_refl).
    + vm_compute. reflexivity.
    + vm_compute. reflexivity.
  - apply (proj2 range_check_then_sum_check pred_f32 1%nat
             eq_refl eq_refl).
    + vm_compute. reflexivity.
    + vm_compute. reflexivity.
Defined.

(** X8: rows of at most one element.  When every row of an array holds
    at most one element (a one-dimensional [pred], or a single category)
    and the array has at least one row, passing the range check implies
    passing the sum check. *)
Theorem range_check_implies_sum_check_narrow (a : array) (n : nat)
    (Hdim : leading_dim (PyArray a) = Some (S n))
    (Hrow : (size_of_shape (tl (a_shape a)) <= 1)%nat)
    (Hrange : _check_pred_range (PyArray a) = Return tt) :
  _check_pred_sum (PyArray a) = Return tt.
Proof.
  simpl in Hdim. rewrite (check_pred_sum_array a n Hdim).
  apply py_assert_return.
  rewrite check_pred_range_array in Hrange.
  apply py_assert_return in Hrange.
  unfold first_row_sum, first_row.
  destruct (size_of_shape (tl (a_shape a))) as [|[|k]]; [| |lia].
  - reflexivity.
  - destruct (a_data a) as [|x l]; [reflexivity|].
    simpl firstn. rewrite np_sum_singleton, !leb_add_zero_l.
    simpl in Hrange. apply andb_true_iff in Hrange as [Hx _].
    unfold in_unit_interval in Hx. now apply andb_true_iff in Hx as [_ Hx].
Qed.

Lemma range_check_implies_sum_check_narrow_witness :
  _check_pred_sum (nd [3]%nat [F64.d0_7; F64.d0_3; F64.d0_9]) = Return tt.
Proof.
  apply (range_check_implies_sum_check_narrow
           (mk_array Cndarray [3]%nat [F64.d0_7; F64.d0_3; F64.d0_9])
           2%nat eq_refl).
  - simpl. lia.
  - vm_compute. reflexivity.
Defined.

(** ** The summation order and the other dtypes on concrete rows *)

Example pairwise_sum_is_not_left_to_right :
  (np_sum row_pairwise_at_one = F64.one
   /\ fold_left F64.add row_pairwise_at_one F64.zero
      = S754_finite false 4503599627370497 (-52)
   /\ _check_pred_sum (nd [1; 10]%nat row_pairwise_at_one) = Return tt)
  /\ (np_sum row_pairwise_above_one
      = S754_finite false 4503599627370497 (-52)
      /\ fold_left F64.add row_pairwise_above_one F64.zero = F64.one
      /\ _check_pred_sum (nd [1; 9]%nat row_pairwise_above_one)
         = Raise SumViolation).
Proof. repeat split; vm_compute; reflexivity. Qed.

Example pairwise_sum_long_row :
  np_sum (repeat F64.d0_5 300) = F64.of_Z 150
  /\ np_sum32 (repeat F32.d0_5 300) = F32.of_Z 150.
Proof. split; vm_compute; reflexivity. Qed.

Example int64_sum_wraps :
  np_sum_int [I64.max_int; 1] = I64.min_int
  /\ _check_pred_sum (PyXArray pred_int_wraps) = Return tt
  /\ _check_pred_range (PyXArray pred_int_wraps) = Raise RangeViolation.
Proof. repeat split; vm_compute; reflexivity. Qed.

Example other_dtypes_well_formed :
  wf_xarray pred_int_wraps = true /\ wf_xarray pred_f32 = true
  /\ forallb F64.valid (row_pairwise_at_one ++ row_pairwise_above_one) = true.
Proof. repeat split; vm_compute; reflexivity. Qed.

Example float32_array_checks :
  _check_type (PyXArray pred_f32) target_0 = Return tt
  /\ _check_match (PyXArray pred_f32) zeros_2_3 = Return tt
  /\ _check_pred_range (PyXArray pred_f32) = Return tt
  /\ _check_pred_sum (PyXArray pred_f32) = Raise SumViolation.
Proof. repeat split; vm_compute; reflexivity. Qed.
